(** * bombardier: the two HTTP client variants of [clients.go]

    A shallow embedding of [clients.go] (package main): the option record
    [clientOpts], the constructors [newFastHTTPClient] and [newHTTPClient],
    the two [do] methods and the two header adapters, together with the
    part of the Go libraries they call (strings, fasthttp, net/http).

    Go values are embedded as follows.
    - [string] is a Go string (a sequence of bytes);
    - [int], [int64], [uint64] and [time.Duration] are [Z], conversions
      between them are written out ([int_of_uint64], [uint64_of_int64]);
    - an [error] interface value is [option error], [None] being [nil];
    - a pointer or func value that may be [nil] ([body], [bodProd],
      [tlsConfig], the header template) is an [option];
    - [http.Header] (a Go map) is a [gmap string (list string)];
    - the network, the clock and the body producers are the environment:
      they act on an abstract environment state, see [Environment]. *)

From Stdlib Require Import ZArith String Ascii List Bool Lia DecimalString.
From stdpp Require Import base option list gmap strings.

Local Open Scope string_scope.
Local Open Scope Z_scope.

(** ** Go primitives *)

Module Go.

(** A non-nil value of the [error] interface. *)
Inductive error : Type :=
| errorString (msg : string).

(** What a call does: it returns, or it panics. *)
Inductive outcome (A : Type) : Type :=
| Ret (a : A)
| Panic (msg : string).
Arguments Ret {A} a.
Arguments Panic {A} msg.

(** [int(x)] for [x : uint64], on a 64-bit platform. *)
Definition int_of_uint64 (x : Z) : Z :=
  let m := x mod 2 ^ 64 in
  if m <? 2 ^ 63 then m else m - 2 ^ 64.

(** [uint64(x)] for [x : int64]. *)
Definition uint64_of_int64 (x : Z) : Z := x mod 2 ^ 64.

(** [int64] addition, as [atomic.AddInt64] performs it. *)
Definition int64_add (x y : Z) : Z :=
  let m := (x + y) mod 2 ^ 64 in
  if m <? 2 ^ 63 then m else m - 2 ^ 64.

(** [t.Sub(u)] for two readings [t] and [u] of the clock, in nanoseconds:
    the difference as a [time.Duration], which is the largest or the
    smallest duration when the difference does not fit an [int64].
    [time.Since(u)] is [time.Now().Sub(u)]. *)
Definition time_Sub (t u : Z) : Z :=
  let d := t - u in
  if 2 ^ 63 - 1 <? d then 2 ^ 63 - 1
  else if d <? - 2 ^ 63 then - 2 ^ 63
  else d.

(** [strings.HasPrefix(s, prefix)]. *)
Fixpoint strings_HasPrefix (s prefix : string) {struct prefix} : bool :=
  match prefix, s with
  | EmptyString, _ => true
  | String _ _, EmptyString => false
  | String a prefix', String b s' =>
      if Ascii.eqb a b then strings_HasPrefix s' prefix' else false
  end.

(** [s[n:]], or the empty string when [s] is shorter than [n]. *)
Fixpoint string_drop (n : nat) (s : string) : string :=
  match n, s with
  | O, _ => s
  | S _, EmptyString => EmptyString
  | S n', String _ s' => string_drop n' s'
  end.

(** [strings.TrimPrefix(s, prefix)]. *)
Definition strings_TrimPrefix (s prefix : string) : string :=
  if strings_HasPrefix s prefix then string_drop (String.length prefix) s
  else s.

(** [strings.Contains(s, substr)]: [substr] starts at some index of [s]. *)
Fixpoint strings_Contains (s substr : string) : bool :=
  strings_HasPrefix s substr
  || match s with
     | EmptyString => false
     | String _ s' => strings_Contains s' substr
     end.

(** [strings.Replace(s, old, new, 1)]: the leftmost occurrence of [old]
    in [s] is replaced by [new]; [s] is returned as it is when [old] does
    not occur. *)
Fixpoint strings_Replace1 (s old new : string) : string :=
  if strings_HasPrefix s old
  then new +:+ string_drop (String.length old) s
  else match s with
       | EmptyString => EmptyString
       | String c s' => String c (strings_Replace1 s' old new)
       end.

(** [err.Error()]. *)
Definition Error (e : error) : string :=
  match e with
  | errorString msg => msg
  end.

End Go.
Export Go.

(** ** The header list *)

(** Modelled from the spec: the type [headersList] ([header], with its
    fields [key] and [value]) is declared outside [clients.go]; the spec
    has it as an ordered sequence of (key, value) pairs. *)
Record header : Type := mkHeader { key : string; value : string }.

Definition headersList : Type := list header.

(** ** Values shared by the two transports *)

(** The address of an [int64] byte counter ([*int64]). *)
Definition counter : Type := positive.

(** [io.ReadCloser]: the bytes that reading still delivers, the error that
    ends the reading in place of [io.EOF], and the error of [Close]. *)
Record ReadCloser : Type := mkReadCloser {
  rc_pending : string;
  rc_readErr : option error;
  rc_closeErr : option error
}.

(** [ioutil.NopCloser(strings.NewReader(s))]. *)
Definition NopCloser_NewReader (s : string) : ReadCloser :=
  {| rc_pending := s; rc_readErr := None; rc_closeErr := None |}.

(** [io.Copy(ioutil.Discard, r)]: reads [r] to its end; the result is the
    number of bytes discarded, the error that stopped the reading if it was
    not [io.EOF], and the reader, with nothing left to deliver. *)
Definition io_Copy_Discard (r : ReadCloser) : Z * option error * ReadCloser :=
  (Z.of_nat (String.length (rc_pending r)), rc_readErr r,
   {| rc_pending := EmptyString;
      rc_readErr := rc_readErr r;
      rc_closeErr := rc_closeErr r |}).

(** [*url.URL], as far as [clients.go] reads it: the fields [Scheme] and
    [Host], and the result of the method [RequestURI()]. *)
Record url_URL : Type := mkURL {
  Scheme : string;
  Host : string;
  RequestURI : string
}.

(** [tls.Config], as far as the two transports touch it. *)
Record tls_Config : Type := mkTLSConfig {
  InsecureSkipVerify : bool;
  ServerName : string;
  NextProtos : list string
}.

(** A dial function. Go has closures here; each constructor is one of the
    functions that [clients.go] builds, with the values it captures. *)
Inductive dialer : Type :=
| countingDial (bytesRead bytesWritten : counter)
    (* fasthttpDialFunc(bytesRead, bytesWritten),
       httpDialContextFunc(bytesRead, bytesWritten) *)
| socksDial (proxyAddr : string)
    (* fasthttpproxy.FasthttpSocksDialer(proxyAddr) *)
| httpProxyDial (proxyAddr : string).
    (* fasthttpproxy.FasthttpHTTPDialer(proxyAddr) *)

(** [atomic.AddInt64(c, n)] on the store of the counters. *)
Definition atomic_AddInt64 (c : counter) (n : Z) (σ : gmap counter Z)
  : gmap counter Z :=
  <[c := int64_add (default 0 (σ !! c)) n]> σ.

(** Modelled from the spec: [fasthttpDialFunc] and [httpDialContextFunc]
    are declared outside [clients.go]. The spec (4.4) has the connection
    they return count every byte read from and written to the socket in the
    two shared counters; a connection of the two proxy dialers is the bare
    one. [conn_transfer d nread nwritten σ] is the store of the counters
    after [nread] bytes were read from and [nwritten] bytes written to a
    connection dialled by [d]. *)
Definition conn_transfer (d : dialer) (nread nwritten : Z)
  (σ : gmap counter Z) : gmap counter Z :=
  match d with
  | countingDial r w => atomic_AddInt64 w nwritten (atomic_AddInt64 r nread σ)
  | socksDial _ => σ
  | httpProxyDial _ => σ
  end.

Definition is_counting (d : dialer) : bool :=
  match d with
  | countingDial _ _ => true
  | _ => false
  end.

(** ** fasthttp *)

Module fasthttp.

Definition toUpper (c : ascii) : ascii :=
  let n := nat_of_ascii c in
  if ((97 <=? n) && (n <=? 122))%nat then ascii_of_nat (n - 32) else c.

Definition toLower (c : ascii) : ascii :=
  let n := nat_of_ascii c in
  if ((65 <=? n) && (n <=? 90))%nat then ascii_of_nat (n + 32) else c.

(** [normalizeHeaderKey]: the first byte and every byte that follows a
    ['-'] are upper-cased, the byte after an upper-cased one is looked at
    afresh, every other byte is lower-cased. [up] says that the byte at hand
    is one to upper-case. *)
Fixpoint normalizeFrom (up : bool) (s : string) : string :=
  match s with
  | EmptyString => EmptyString
  | String c s' =>
      if up then String (toUpper c) (normalizeFrom false s')
      else if Ascii.eqb c "-" then String c (normalizeFrom true s')
      else String (toLower c) (normalizeFrom false s')
  end.

Definition normalizeHeaderKey (k : string) : string := normalizeFrom true k.

(** [removeNewLines]: every carriage return and every line feed of a
    header value becomes a space. *)
Definition isNewLine (c : ascii) : bool :=
  Ascii.eqb c "010" || Ascii.eqb c "013".

Fixpoint removeNewLines (s : string) : string :=
  match s with
  | EmptyString => EmptyString
  | String c s' =>
      String (if isNewLine c then " "%char else c) (removeNewLines s')
  end.

(** [setArg]: the value of the first entry under [k] is replaced, or the
    pair is appended. *)
Fixpoint setArg (l : list (string * string)) (k v : string)
  : list (string * string) :=
  match l with
  | [] => [(k, v)]
  | (k', v') :: l' =>
      if String.eqb k k' then (k', v) :: l' else (k', v') :: setArg l' k v
  end.

Fixpoint peekArg (l : list (string * string)) (k : string) : string :=
  match l with
  | [] => EmptyString
  | (k', v') :: l' => if String.eqb k k' then v' else peekArg l' k
  end.

(** [delAllArgs]: the entries under [k] are taken out. *)
Fixpoint delAllArgs (l : list (string * string)) (k : string)
  : list (string * string) :=
  match l with
  | [] => []
  | (k', v') :: l' =>
      if String.eqb k k' then delAllArgs l' k else (k', v') :: delAllArgs l' k
  end.

(** The values of the entries under [k], in their order. *)
Fixpoint argValues (l : list (string * string)) (k : string) : list string :=
  match l with
  | [] => []
  | (k', v') :: l' =>
      if String.eqb k k' then v' :: argValues l' k else argValues l' k
  end.

(** *** Cookies *)

Fixpoint trimLeft (s : string) : string :=
  match s with
  | EmptyString => EmptyString
  | String c s' => if Ascii.eqb c " " then trimLeft s' else s
  end.

Fixpoint trimRight (s : string) : string :=
  match s with
  | EmptyString => EmptyString
  | String c s' =>
      match trimRight s' with
      | EmptyString =>
          if Ascii.eqb c " " then EmptyString else String c EmptyString
      | t => String c t
      end
  end.

(** A string without its last byte, and this byte. *)
Fixpoint unsnoc (s : string) : option (string * ascii) :=
  match s with
  | EmptyString => None
  | String c s' =>
      match unsnoc s' with
      | None => Some (EmptyString, c)
      | Some (init, last) => Some (String c init, last)
      end
  end.

(** [decodeCookieArg]: the spaces around [src] are dropped, and with
    [skipQuotes] the pair of double quotes around what is left. *)
Definition decodeCookieArg (src : string) (skipQuotes : bool) : string :=
  let src := trimRight (trimLeft src) in
  if skipQuotes then
    match src with
    | String q rest =>
        match unsnoc rest with
        | Some (mid, q') =>
            if Ascii.eqb q "034" && Ascii.eqb q' "034" then mid else src
        | None => src
        end
    | EmptyString => src
    end
  else src.

(** What is before the first [sep] of [s] and, when there is one, what is
    after it. *)
Fixpoint cut (sep : ascii) (s : string) : string * option string :=
  match s with
  | EmptyString => (EmptyString, None)
  | String c s' =>
      if Ascii.eqb c sep then (EmptyString, Some s')
      else let '(before, after) := cut sep s' in (String c before, after)
  end.

(** The pieces of [s] between its [sep]s. *)
Fixpoint pieces (sep : ascii) (s : string) : list string :=
  match s with
  | EmptyString => [EmptyString]
  | String c s' =>
      if Ascii.eqb c sep then EmptyString :: pieces sep s'
      else
        match pieces sep s' with
        | piece :: rest => String c piece :: rest
        | [] => [String c EmptyString]
        end
  end.

(** One step of [cookieScanner.next], on the piece up to the next [';']:
    the key is what is before the first ['='], the value what is after
    it; without a ['='] the key is empty. *)
Definition scanCookie (piece : string) : string * string :=
  match cut "=" piece with
  | (k, Some v) => (decodeCookieArg k false, decodeCookieArg v true)
  | (v, None) => (EmptyString, decodeCookieArg v true)
  end.

(** [parseRequestCookies(cookies, src)]: the cookies of [src] are added
    to [cookies], but for those with neither a key nor a value. *)
Definition parseRequestCookies (cookies : list (string * string))
  (src : string) : list (string * string) :=
  (cookies ++
   List.filter
     (fun kv => negb (String.eqb (fst kv) "" && String.eqb (snd kv) ""))
     (map scanCookie (pieces ";" src)))%list.

(** [appendRequestCookieBytes(nil, cookies)]: the cookies as one value. *)
Fixpoint appendRequestCookieBytes (cookies : list (string * string))
  : string :=
  match cookies with
  | [] => EmptyString
  | (k, v) :: rest =>
      (if String.eqb k "" then v else k +:+ "=" +:+ v)
      +:+ match rest with
          | [] => EmptyString
          | _ :: _ => "; " +:+ appendRequestCookieBytes rest
          end
  end.

(** *** The length of the body *)

(** [parseContentLength]: the number that [s] is the decimal notation
    of; none for the empty string, for a string with another byte than a
    digit, and for a number that is found to overflow an [int]. *)
Fixpoint parseUint (v : Z) (s : string) : option Z :=
  match s with
  | EmptyString => Some v
  | String c s' =>
      let k := Z.of_nat (nat_of_ascii c) - 48 in
      if (0 <=? k) && (k <=? 9) then
        let vNew := int_of_uint64 (10 * v + k) in
        if vNew <? v then None else parseUint vNew s'
      else None
  end.

Definition parseContentLength (s : string) : option Z :=
  match s with
  | EmptyString => None
  | String _ _ => parseUint 0 s
  end.

(** [AppendUint(nil, n)]: the decimal notation of [n]. *)
Definition AppendUint (n : Z) : string :=
  NilZero.string_of_uint (N.to_uint (Z.to_N n)).

(** *** [RequestHeader] *)

(** [RequestHeader]: the headers that have a field of their own (whether
    the connection is to be closed, the length of the body as a number and
    as it is written, the method, the host, the content type, the user
    agent, the cookies and whether they were collected from [h]), and the
    list [h] of the other headers in the order of their first [Set]. *)
Record RequestHeader : Type := mkRequestHeader {
  connectionClose : bool;
  contentLength : Z;
  contentLengthBytes : string;
  method : string;
  host : string;
  contentType : string;
  userAgent : string;
  h : list (string * string);
  cookies : list (string * string);
  cookiesCollected : bool
}.

(** [new(RequestHeader)]. *)
Definition newRequestHeader : RequestHeader :=
  {| connectionClose := false; contentLength := 0;
     contentLengthBytes := EmptyString; method := EmptyString;
     host := EmptyString; contentType := EmptyString;
     userAgent := EmptyString; h := []; cookies := [];
     cookiesCollected := false |}.

Definition SetHost (v : string) (rh : RequestHeader) : RequestHeader :=
  {| connectionClose := connectionClose rh;
     contentLength := contentLength rh;
     contentLengthBytes := contentLengthBytes rh;
     method := method rh; host := v; contentType := contentType rh;
     userAgent := userAgent rh; h := h rh; cookies := cookies rh;
     cookiesCollected := cookiesCollected rh |}.

Definition SetMethod (m : string) (rh : RequestHeader) : RequestHeader :=
  {| connectionClose := connectionClose rh;
     contentLength := contentLength rh;
     contentLengthBytes := contentLengthBytes rh;
     method := m; host := host rh; contentType := contentType rh;
     userAgent := userAgent rh; h := h rh; cookies := cookies rh;
     cookiesCollected := cookiesCollected rh |}.

Definition SetContentType (v : string) (rh : RequestHeader)
  : RequestHeader :=
  {| connectionClose := connectionClose rh;
     contentLength := contentLength rh;
     contentLengthBytes := contentLengthBytes rh;
     method := method rh; host := host rh; contentType := v;
     userAgent := userAgent rh; h := h rh; cookies := cookies rh;
     cookiesCollected := cookiesCollected rh |}.

Definition SetUserAgent (v : string) (rh : RequestHeader) : RequestHeader :=
  {| connectionClose := connectionClose rh;
     contentLength := contentLength rh;
     contentLengthBytes := contentLengthBytes rh;
     method := method rh; host := host rh; contentType := contentType rh;
     userAgent := v; h := h rh; cookies := cookies rh;
     cookiesCollected := cookiesCollected rh |}.

(** The header with another list of the other headers. *)
Definition withArgs (l : list (string * string)) (rh : RequestHeader)
  : RequestHeader :=
  {| connectionClose := connectionClose rh;
     contentLength := contentLength rh;
     contentLengthBytes := contentLengthBytes rh;
     method := method rh; host := host rh; contentType := contentType rh;
     userAgent := userAgent rh; h := l; cookies := cookies rh;
     cookiesCollected := cookiesCollected rh |}.

Definition SetConnectionClose (rh : RequestHeader) : RequestHeader :=
  {| connectionClose := true;
     contentLength := contentLength rh;
     contentLengthBytes := contentLengthBytes rh;
     method := method rh; host := host rh; contentType := contentType rh;
     userAgent := userAgent rh; h := h rh; cookies := cookies rh;
     cookiesCollected := cookiesCollected rh |}.

Definition ResetConnectionClose (rh : RequestHeader) : RequestHeader :=
  if connectionClose rh then
    {| connectionClose := false;
       contentLength := contentLength rh;
       contentLengthBytes := contentLengthBytes rh;
       method := method rh; host := host rh; contentType := contentType rh;
       userAgent := userAgent rh; h := delAllArgs (h rh) "Connection";
       cookies := cookies rh; cookiesCollected := cookiesCollected rh |}
  else rh.

(** [collectCookies]: the Cookie headers of [h] are parsed and moved to
    the cookies, once. *)
Definition collectCookies (rh : RequestHeader) : RequestHeader :=
  if cookiesCollected rh then rh
  else
    {| connectionClose := connectionClose rh;
       contentLength := contentLength rh;
       contentLengthBytes := contentLengthBytes rh;
       method := method rh; host := host rh; contentType := contentType rh;
       userAgent := userAgent rh; h := delAllArgs (h rh) "Cookie";
       cookies :=
         fold_left parseRequestCookies (argValues (h rh) "Cookie")
           (cookies rh);
       cookiesCollected := true |}.

Definition withCookies (l : list (string * string)) (rh : RequestHeader)
  : RequestHeader :=
  {| connectionClose := connectionClose rh;
     contentLength := contentLength rh;
     contentLengthBytes := contentLengthBytes rh;
     method := method rh; host := host rh; contentType := contentType rh;
     userAgent := userAgent rh; h := h rh; cookies := l;
     cookiesCollected := cookiesCollected rh |}.

(** [h.SetContentLength(n)]: the length of the body; a negative length
    (not known) makes the transfer encoding chunked. *)
Definition SetContentLength (n : Z) (rh : RequestHeader) : RequestHeader :=
  {| connectionClose := connectionClose rh;
     contentLength := n;
     contentLengthBytes := if 0 <=? n then AppendUint n else EmptyString;
     method := method rh; host := host rh; contentType := contentType rh;
     userAgent := userAgent rh;
     h := if 0 <=? n then delAllArgs (h rh) "Transfer-Encoding"
          else setArg (h rh) "Transfer-Encoding" "chunked";
     cookies := cookies rh; cookiesCollected := cookiesCollected rh |}.

(** [h.SetCanonical(key, value)]: the headers with a field of their own
    go there, the others to the list. Several Cookie headers add up; a
    Content-Length that is no number and any Transfer-Encoding are
    dropped. *)
Definition SetCanonical (key value : string) (rh : RequestHeader)
  : RequestHeader :=
  if String.eqb key "Host" then SetHost value rh
  else if String.eqb key "Content-Type" then SetContentType value rh
  else if String.eqb key "User-Agent" then SetUserAgent value rh
  else if String.eqb key "Cookie" then
    let rh := collectCookies rh in
    withCookies (parseRequestCookies (cookies rh) value) rh
  else if String.eqb key "Content-Length" then
    match parseContentLength value with
    | Some n =>
        {| connectionClose := connectionClose rh;
           contentLength := n;
           contentLengthBytes := value;
           method := method rh; host := host rh;
           contentType := contentType rh; userAgent := userAgent rh;
           h := h rh; cookies := cookies rh;
           cookiesCollected := cookiesCollected rh |}
    | None => rh
    end
  else if String.eqb key "Connection" then
    if String.eqb value "close" then SetConnectionClose rh
    else
      let rh := ResetConnectionClose rh in
      withArgs (setArg (h rh) key value) rh
  else if String.eqb key "Transfer-Encoding" then
    (* Transfer-Encoding is managed automatically *)
    rh
  else withArgs (setArg (h rh) key value) rh.

(** [h.Set(key, value)], on a header that normalizes the names (as one
    made by [new] does): the key is normalized, the line breaks of the
    value become spaces. Later versions of the library also keep the
    header Trailer apart, which is not modelled. *)
Definition RequestHeader_Set (key value : string) (rh : RequestHeader)
  : RequestHeader :=
  SetCanonical (normalizeHeaderKey key) (removeNewLines value) rh.

(** [h.peek(key)], for a normalized key; the empty string when nothing
    is stored. *)
Definition peek (k : string) (rh : RequestHeader) : string :=
  if String.eqb k "Host" then host rh
  else if String.eqb k "Content-Type" then contentType rh
  else if String.eqb k "User-Agent" then userAgent rh
  else if String.eqb k "Connection" then
    if connectionClose rh then "close" else peekArg (h rh) k
  else if String.eqb k "Content-Length" then contentLengthBytes rh
  else if String.eqb k "Cookie" then
    if cookiesCollected rh then appendRequestCookieBytes (cookies rh)
    else peekArg (h rh) k
  else peekArg (h rh) k.

(** [h.Peek(key)]. *)
Definition RequestHeader_Peek (key : string) (rh : RequestHeader) : string :=
  peek (normalizeHeaderKey key) rh.

(** [src.CopyTo(dst)]: [dst] becomes a copy of [src]. *)
Definition CopyTo (src dst : RequestHeader) : RequestHeader := src.

(** The body of a request. *)
Inductive requestBody : Type :=
| noBody
| bodyString (s : string)                    (* SetBodyString(s) *)
| bodyStream (bs : ReadCloser) (size : Z).   (* SetBodyStream(bs, size) *)

Record Request : Type := mkRequest {
  Header : RequestHeader;
  uriScheme : string;
  requestURI : string;
  body : requestBody
}.

(** A request as [AcquireRequest] hands it out: reset. *)
Definition emptyRequest : Request :=
  {| Header := newRequestHeader; uriScheme := EmptyString;
     requestURI := EmptyString; body := noBody |}.

Record Response : Type := mkResponse {
  StatusCode : Z
}.

Definition emptyResponse : Response := {| StatusCode := 0 |}.

Record HostClient : Type := mkHostClient {
  Addr : string;
  IsTLS : bool;
  MaxConns : Z;
  ReadTimeout : Z;
  WriteTimeout : Z;
  DisableHeaderNamesNormalizing : bool;
  TLSConfig : option tls_Config;
  Dial : dialer
}.

(** The pools behind [AcquireRequest]/[ReleaseRequest] and
    [AcquireResponse]/[ReleaseResponse]: how many objects are out, acquired
    and not released. *)
Record pools : Type := mkPools {
  requestsOut : nat;
  responsesOut : nat
}.

Definition AcquireRequest (p : pools) : Request * pools :=
  (emptyRequest,
   {| requestsOut := S (requestsOut p); responsesOut := responsesOut p |}).

Definition AcquireResponse (p : pools) : Response * pools :=
  (emptyResponse,
   {| requestsOut := requestsOut p; responsesOut := S (responsesOut p) |}).

Definition ReleaseRequest (req : Request) (p : pools) : pools :=
  {| requestsOut := pred (requestsOut p); responsesOut := responsesOut p |}.

Definition ReleaseResponse (resp : Response) (p : pools) : pools :=
  {| requestsOut := requestsOut p; responsesOut := pred (responsesOut p) |}.

End fasthttp.

(** ** net/http *)

Module nethttp.

(** [validHeaderFieldByte]: the bytes of an HTTP token. *)
Definition validHeaderFieldByte (c : ascii) : bool :=
  let n := nat_of_ascii c in
  (((48 <=? n) && (n <=? 57)) || ((65 <=? n) && (n <=? 90))
   || ((97 <=? n) && (n <=? 122))
   || existsb (Ascii.eqb c)
        ["!"; "#"; "$"; "%"; "&"; "'"; "*"; "+"; "-"; "."; "^"; "_"; "`";
         "|"; "~"]%char)%nat.

Fixpoint allValid (s : string) : bool :=
  match s with
  | EmptyString => true
  | String c s' => validHeaderFieldByte c && allValid s'
  end.

Fixpoint canonicalFrom (upper : bool) (s : string) : string :=
  match s with
  | EmptyString => EmptyString
  | String c s' =>
      let c' := if upper then fasthttp.toUpper c else fasthttp.toLower c in
      String c' (canonicalFrom (Ascii.eqb c' "-") s')
  end.

(** [textproto.CanonicalMIMEHeaderKey]: a key with a byte that is not a
    token byte is returned as it is; otherwise the first letter and every
    letter after a hyphen are upper-cased and the others lower-cased. *)
Definition CanonicalMIMEHeaderKey (s : string) : string :=
  if allValid s then canonicalFrom true s else s.

(** [h.Get(key)]: the first value under the canonical form of [key], the
    empty string when there is none. The map itself is indexed as it is. *)
Definition Header_Get (hd : gmap string (list string)) (key : string)
  : string :=
  match hd !! CanonicalMIMEHeaderKey key with
  | Some (v :: _) => v
  | _ => EmptyString
  end.

Record Request : Type := mkRequest {
  Header : gmap string (list string);
  Method : string;
  URL : option url_URL;
  Host : string;
  ContentLength : Z;
  Body : option ReadCloser
}.

(** [&http.Request{}]. *)
Definition zeroRequest : Request :=
  {| Header := ∅; Method := EmptyString; URL := None; Host := EmptyString;
     ContentLength := 0; Body := None |}.

Record Response : Type := mkResponse {
  StatusCode : Z;
  RespBody : ReadCloser
}.

(** [http.ProxyURL(u)]: the proxy function that answers [u] for every
    request; [u] may be [nil]. *)
Inductive proxyFunc : Type :=
| ProxyURL (u : option url_URL).

Record Transport : Type := mkTransport {
  TLSClientConfig : option tls_Config;
  MaxIdleConnsPerHost : Z;
  DisableKeepAlives : bool;
  Proxy : option proxyFunc;
  DialContext : option dialer;
  TLSNextProto : option (gset string)   (* the keys of the map *)
}.

(** The one redirect policy of [clients.go]: the function that returns
    [http.ErrUseLastResponse]. *)
Inductive redirectPolicy : Type :=
| useLastResponse.

Record Client : Type := mkClient {
  Transport_ : Transport;
  Timeout : Z;
  CheckRedirect : option redirectPolicy
}.

Definition zeroTLSConfig : tls_Config :=
  {| InsecureSkipVerify := false; ServerName := EmptyString;
     NextProtos := [] |}.

(** [http2.ConfigureTransport(t1)]: the TLS configuration (a new one when
    there is none) offers "h2" first and "http/1.1", and "h2" is
    registered in [TLSNextProto]. The other fields are left alone. *)
Definition http2_ConfigureTransport (t1 : Transport) : Transport :=
  let cfg := default zeroTLSConfig (TLSClientConfig t1) in
  let np := NextProtos cfg in
  let np1 := if existsb (String.eqb "h2") np then np else "h2" :: np in
  let np2 := if existsb (String.eqb "http/1.1") np1 then np1
             else (np1 ++ ["http/1.1"])%list in
  {| TLSClientConfig :=
       Some {| InsecureSkipVerify := InsecureSkipVerify cfg;
               ServerName := ServerName cfg;
               NextProtos := np2 |};
     MaxIdleConnsPerHost := MaxIdleConnsPerHost t1;
     DisableKeepAlives := DisableKeepAlives t1;
     Proxy := Proxy t1;
     DialContext := DialContext t1;
     TLSNextProto := Some ({["h2"]} ∪ default ∅ (TLSNextProto t1)) |}.

End nethttp.

(** ** The environment *)

(** What [clients.go] leaves to its libraries and to the outside world, on
    a state [E] of the environment: the clock, the URL parser, and the two
    transports. A submission answers with a response or with an error, and
    leaves the environment in a new state. *)
Class Environment (E : Type) : Type := {
  (** [time.Now()], as nanoseconds of the monotonic clock *)
  time_Now : E -> Z;
  (** [url.Parse(rawurl)] *)
  url_Parse : string -> url_URL + error;
  (** [(&url.URL{}).Parse(ref)] *)
  URL_Parse : string -> url_URL + error;
  (** [Do(req, resp)] of a [fasthttp.HostClient] *)
  HostClient_Do :
    fasthttp.HostClient -> fasthttp.Request -> E ->
    (fasthttp.Response + error) * E;
  (** [Do(req)] of a [http.Client] *)
  Client_Do :
    nethttp.Client -> nethttp.Request -> E -> (nethttp.Response + error) * E
}.

(** [bodyStreamProducer]: [func() (io.ReadCloser, error)]. *)
Definition bodyStreamProducer (E : Type) : Type :=
  E -> (ReadCloser + error) * E.

(** What a run leaves behind, besides its results. *)
Inductive event : Type :=
| evHostClientDo (req : fasthttp.Request)
    (* a request went to the fasthttp transport *)
| evClientDo (req : nethttp.Request)
    (* a request went to the net/http transport *)
| evBodyRead (n : Z)
    (* a response body was read to its end, [n] bytes were discarded *)
| evBodyClose (unread : string).
    (* a response body was closed, with [unread] still to deliver *)

Record World (E : Type) : Type := mkWorld {
  env : E;
  pool : fasthttp.pools;
  log : list event
}.
Arguments mkWorld {E}.
Arguments env {E}.
Arguments pool {E}.
Arguments log {E}.

Definition setEnv {E} (e : E) (w : World E) : World E :=
  {| env := e; pool := pool w; log := log w |}.

Definition setPool {E} (p : fasthttp.pools) (w : World E) : World E :=
  {| env := env w; pool := p; log := log w |}.

Definition emit {E} (ev : event) (w : World E) : World E :=
  {| env := env w; pool := pool w; log := (log w ++ [ev])%list |}.

(** The results of [do]: [(code int, usTaken uint64, err error)]. *)
Definition doResult : Type := (Z * Z * option error)%type.

(** ** [clients.go] *)

(** [type clientOpts struct]. [headers] is the list behind the pointer:
    the options are taken with a header list, and what the constructors
    do with a [nil] pointer (they panic in the adapters, lines 243 and
    254) is outside this model. [bytesRead] and [bytesWritten] are the
    addresses of the two counters; [maxConns] is a [uint64], [timeout] a
    [time.Duration]. *)
Module clientOpts.
Record t (E : Type) : Type := mk {
  HTTP2 : bool;
  maxConns : Z;
  timeout : Z;
  tlsConfig : option tls_Config;
  disableKeepAlives : bool;
  headers : headersList;
  url : string;
  method : string;
  proxyUrl : string;
  body : option string;
  bodProd : option (bodyStreamProducer E);
  bytesRead : counter;
  bytesWritten : counter
}.
Arguments mk {E}.
Arguments HTTP2 {E}.
Arguments maxConns {E}.
Arguments timeout {E}.
Arguments tlsConfig {E}.
Arguments disableKeepAlives {E}.
Arguments headers {E}.
Arguments url {E}.
Arguments method {E}.
Arguments proxyUrl {E}.
Arguments body {E}.
Arguments bodProd {E}.
Arguments bytesRead {E}.
Arguments bytesWritten {E}.
End clientOpts.

(** [func headersToFastHTTPHeaders(h *headersList) *fasthttp.RequestHeader] *)
Definition headersToFastHTTPHeaders (h : headersList)
  : option fasthttp.RequestHeader :=
  if (length h =? 0)%nat then None
  else
    Some (fold_left
            (fun res hd => fasthttp.RequestHeader_Set (key hd) (value hd) res)
            h fasthttp.newRequestHeader).

(** [func headersToHTTPHeaders(h *headersList) http.Header] *)
Definition headersToHTTPHeaders (h : headersList) : gmap string (list string) :=
  if (length h =? 0)%nat then ∅
  else
    fold_left (fun headers hd => <[key hd := [value hd]]> headers) h ∅.

(** [type fasthttpClient struct] and its method [do]. *)
Module fasthttpClient.
Record t (E : Type) : Type := mk {
  client : fasthttp.HostClient;
  headers : option fasthttp.RequestHeader;
  host : string;
  requestURI : string;
  method : string;
  body : option string;
  bodProd : option (bodyStreamProducer E)
}.
Arguments mk {E}.
Arguments client {E}.
Arguments headers {E}.
Arguments host {E}.
Arguments requestURI {E}.
Arguments method {E}.
Arguments body {E}.
Arguments bodProd {E}.

Definition withHeader (hd : fasthttp.RequestHeader) (req : fasthttp.Request)
  : fasthttp.Request :=
  {| fasthttp.Header := hd;
     fasthttp.uriScheme := fasthttp.uriScheme req;
     fasthttp.requestURI := fasthttp.requestURI req;
     fasthttp.body := fasthttp.body req |}.

Definition SetScheme (s : string) (req : fasthttp.Request)
  : fasthttp.Request :=
  {| fasthttp.Header := fasthttp.Header req;
     fasthttp.uriScheme := s;
     fasthttp.requestURI := fasthttp.requestURI req;
     fasthttp.body := fasthttp.body req |}.

Definition SetRequestURI (u : string) (req : fasthttp.Request)
  : fasthttp.Request :=
  {| fasthttp.Header := fasthttp.Header req;
     fasthttp.uriScheme := fasthttp.uriScheme req;
     fasthttp.requestURI := u;
     fasthttp.body := fasthttp.body req |}.

(** The request with the body [b]; with a string, this is
    [req.SetBodyString], which leaves the header as it is. *)
Definition SetBody (b : fasthttp.requestBody) (req : fasthttp.Request)
  : fasthttp.Request :=
  {| fasthttp.Header := fasthttp.Header req;
     fasthttp.uriScheme := fasthttp.uriScheme req;
     fasthttp.requestURI := fasthttp.requestURI req;
     fasthttp.body := b |}.

(** [req.SetBodyStream(bs, size)]: the stream is the body, and its size
    is set on the header. *)
Definition SetBodyStream (bs : ReadCloser) (size : Z) (req : fasthttp.Request)
  : fasthttp.Request :=
  {| fasthttp.Header := fasthttp.SetContentLength size (fasthttp.Header req);
     fasthttp.uriScheme := fasthttp.uriScheme req;
     fasthttp.requestURI := fasthttp.requestURI req;
     fasthttp.body := fasthttp.bodyStream bs size |}.

(** [do], lines 99 to 111: the header template, the Host header, the
    method, the scheme and the request URI are put on the request. *)
Definition prepare {E} (c : t E) (req : fasthttp.Request) : fasthttp.Request :=
  let req :=
    match headers c with
    | Some hs => withHeader (fasthttp.CopyTo hs (fasthttp.Header req)) req
    | None => req
    end in
  let req :=
    if (String.length (fasthttp.host (fasthttp.Header req)) =? 0)%nat
    then withHeader (fasthttp.SetHost (host c) (fasthttp.Header req)) req
    else req in
  let req :=
    withHeader (fasthttp.SetMethod (method c) (fasthttp.Header req)) req in
  let req :=
    if fasthttp.IsTLS (client c) then SetScheme "https" req
    else SetScheme "http" req in
  SetRequestURI (requestURI c) req.

(** [do], lines 122 to 136: the request is fired, the time taken is
    measured, the request and the response go back to their pools. *)
Definition fire {E} `{Environment E} (c : t E) (req : fasthttp.Request)
  (resp : fasthttp.Response) (w : World E) : outcome doResult * World E :=
  (* fire the request *)
  let start := time_Now (env w) in
  let '(r, e) := HostClient_Do (client c) req (env w) in
  let w := setEnv e (emit (evHostClientDo req) w) in
  let '(code, err) :=
    match r with
    | inr err => (-1, Some err)
    | inl resp => (fasthttp.StatusCode resp, None)
    end in
  let usTaken :=
    uint64_of_int64 (Z.quot (time_Sub (time_Now (env w)) start) 1000) in
  (* release resources *)
  let w := setPool (fasthttp.ReleaseRequest req (pool w)) w in
  let w := setPool (fasthttp.ReleaseResponse resp (pool w)) w in
  (Ret (code, usTaken, err), w).

(** [func (c *fasthttpClient) do() (code int, usTaken uint64, err error)] *)
Definition do {E} `{Environment E} (c : t E) (w : World E)
  : outcome doResult * World E :=
  (* prepare the request *)
  let '(req, p) := fasthttp.AcquireRequest (pool w) in
  let '(resp, p) := fasthttp.AcquireResponse p in
  let w := setPool p w in
  let req := prepare c req in
  match body c with
  | Some b => fire c (SetBody (fasthttp.bodyString b) req) resp w
  | None =>
      match bodProd c with
      | None => (Panic "invalid memory address or nil pointer dereference", w)
      | Some prod =>
          let '(r, e) := prod (env w) in
          let w := setEnv e w in
          match r with
          | inr bserr => (Ret (0, 0, Some bserr), w)
          | inl bs => fire c (SetBodyStream bs (-1) req) resp w
          end
      end
  end.

(** The request that [do] hands to the transport in [w], and the state
    of the environment it does so in; [None] when [do] does not get
    there. *)
Definition submission {E} (c : t E) (w : World E)
  : option (fasthttp.Request * E) :=
  let req := prepare c fasthttp.emptyRequest in
  match body c with
  | Some b => Some (SetBody (fasthttp.bodyString b) req, env w)
  | None =>
      match bodProd c with
      | None => None
      | Some prod =>
          match prod (env w) with
          | (inr _, _) => None
          | (inl bs, e) => Some (SetBodyStream bs (-1) req, e)
          end
      end
  end.
End fasthttpClient.

(** [type httpClient struct] and its method [do]. *)
Module httpClient.
Record t (E : Type) : Type := mk {
  client : nethttp.Client;
  headers : gmap string (list string);
  url : option url_URL;
  method : string;
  body : option string;
  bodProd : option (bodyStreamProducer E)
}.
Arguments mk {E}.
Arguments client {E}.
Arguments headers {E}.
Arguments url {E}.
Arguments method {E}.
Arguments body {E}.
Arguments bodProd {E}.

Definition SetHost (v : string) (req : nethttp.Request) : nethttp.Request :=
  {| nethttp.Header := nethttp.Header req;
     nethttp.Method := nethttp.Method req;
     nethttp.URL := nethttp.URL req;
     nethttp.Host := v;
     nethttp.ContentLength := nethttp.ContentLength req;
     nethttp.Body := nethttp.Body req |}.

Definition SetContentLength (n : Z) (req : nethttp.Request)
  : nethttp.Request :=
  {| nethttp.Header := nethttp.Header req;
     nethttp.Method := nethttp.Method req;
     nethttp.URL := nethttp.URL req;
     nethttp.Host := nethttp.Host req;
     nethttp.ContentLength := n;
     nethttp.Body := nethttp.Body req |}.

Definition SetBody (b : ReadCloser) (req : nethttp.Request)
  : nethttp.Request :=
  {| nethttp.Header := nethttp.Header req;
     nethttp.Method := nethttp.Method req;
     nethttp.URL := nethttp.URL req;
     nethttp.Host := nethttp.Host req;
     nethttp.ContentLength := nethttp.ContentLength req;
     nethttp.Body := Some b |}.

(** [do], lines 199 to 207: the request value, with the headers, the
    method and the URL of the client, and with the Host header as its
    [Host] when there is one. *)
Definition prepare {E} (c : t E) : nethttp.Request :=
  let req := nethttp.zeroRequest in
  let req :=
    {| nethttp.Header := headers c;
       nethttp.Method := method c;
       nethttp.URL := url c;
       nethttp.Host := nethttp.Host req;
       nethttp.ContentLength := nethttp.ContentLength req;
       nethttp.Body := nethttp.Body req |} in
  let host := nethttp.Header_Get (nethttp.Header req) "Host" in
  if negb (String.eqb host "") then SetHost host req else req.

(** [do], lines 221 to 239: the request is submitted; the body of a
    response is copied to [ioutil.Discard] and closed; the time taken is
    measured. The reading and the closing of the body are steps on the
    response, not on the environment: the clock of line 237 is read in
    the state that the transport left, so that the time of this model
    has the submission in it and not the reading of the body. *)
Definition fire {E} `{Environment E} (c : t E) (req : nethttp.Request)
  (w : World E) : outcome doResult * World E :=
  let start := time_Now (env w) in
  let '(r, e) := Client_Do (client c) req (env w) in
  let w := setEnv e (emit (evClientDo req) w) in
  let '(code, err, w) :=
    match r with
    | inr err => (-1, Some err, w)
    | inl resp =>
        let err : option error := None in
        let code := nethttp.StatusCode resp in
        let '(n, berr, rbody) := io_Copy_Discard (nethttp.RespBody resp) in
        let w := emit (evBodyRead n) w in
        let err := match berr with Some _ => berr | None => err end in
        let cerr := rc_closeErr rbody in
        let w := emit (evBodyClose (rc_pending rbody)) w in
        let err := match cerr with Some _ => cerr | None => err end in
        (code, err, w)
    end in
  let usTaken :=
    uint64_of_int64 (Z.quot (time_Sub (time_Now (env w)) start) 1000) in
  (Ret (code, usTaken, err), w).

(** [func (c *httpClient) do() (code int, usTaken uint64, err error)] *)
Definition do {E} `{Environment E} (c : t E) (w : World E)
  : outcome doResult * World E :=
  let req := prepare c in
  match body c with
  | Some b =>
      let br := NopCloser_NewReader b in
      let req := SetContentLength (Z.of_nat (String.length b)) req in
      fire c (SetBody br req) w
  | None =>
      match bodProd c with
      | None => (Panic "invalid memory address or nil pointer dereference", w)
      | Some prod =>
          let '(r, e) := prod (env w) in
          let w := setEnv e w in
          match r with
          | inr bserr => (Ret (0, 0, Some bserr), w)
          | inl bs => fire c (SetBody bs req) w
          end
      end
  end.

(** The request that [do] hands to the transport in [w], and the state
    of the environment it does so in; [None] when [do] does not get
    there. *)
Definition submission {E} (c : t E) (w : World E)
  : option (nethttp.Request * E) :=
  let req := prepare c in
  match body c with
  | Some b =>
      Some (SetBody (NopCloser_NewReader b)
              (SetContentLength (Z.of_nat (String.length b)) req), env w)
  | None =>
      match bodProd c with
      | None => None
      | Some prod =>
          match prod (env w) with
          | (inr _, _) => None
          | (inl bs, e) => Some (SetBody bs req, e)
          end
      end
  end.
End httpClient.

(** [type client interface { do() (code int, usTaken uint64, err error) }]
    and its two implementations. *)
Inductive client (E : Type) : Type :=
| fastClient (c : fasthttpClient.t E)
| stdClient (c : httpClient.t E).
Arguments fastClient {E}.
Arguments stdClient {E}.

Definition client_do {E} `{Environment E} (c : client E) (w : World E)
  : outcome doResult * World E :=
  match c with
  | fastClient c => fasthttpClient.do c w
  | stdClient c => httpClient.do c w
  end.

(** [func newFastHTTPClient(opts *clientOpts) client] *)
Definition newFastHTTPClient {E} `{Environment E} (opts : clientOpts.t E)
  : outcome (client E) :=
  match url_Parse (clientOpts.url opts) with
  | inr err =>
      (* opts.url guaranteed to be valid at this point *)
      Panic (Error err)
  | inl u =>
      let dial :=
        if negb (String.eqb (clientOpts.proxyUrl opts) "") then
          if strings_Contains (clientOpts.proxyUrl opts) "socks5" then
            let urlProxy :=
              strings_Replace1 (clientOpts.proxyUrl opts) "socks5://" "" in
            socksDial urlProxy
          else
            let urlProxy :=
              strings_Replace1 (clientOpts.proxyUrl opts) "https://" "" in
            let urlProxy := strings_Replace1 urlProxy "http://" "" in
            httpProxyDial urlProxy
        else
          countingDial (clientOpts.bytesRead opts)
                       (clientOpts.bytesWritten opts) in
      Ret (fastClient
             {| fasthttpClient.client :=
                  {| fasthttp.Addr := Host u;
                     fasthttp.IsTLS := String.eqb (Scheme u) "https";
                     fasthttp.MaxConns :=
                       int_of_uint64 (clientOpts.maxConns opts);
                     fasthttp.ReadTimeout := clientOpts.timeout opts;
                     fasthttp.WriteTimeout := clientOpts.timeout opts;
                     fasthttp.DisableHeaderNamesNormalizing := true;
                     fasthttp.TLSConfig := clientOpts.tlsConfig opts;
                     fasthttp.Dial := dial |};
                fasthttpClient.headers :=
                  headersToFastHTTPHeaders (clientOpts.headers opts);
                fasthttpClient.host := Host u;
                fasthttpClient.requestURI := RequestURI u;
                fasthttpClient.method := clientOpts.method opts;
                fasthttpClient.body := clientOpts.body opts;
                fasthttpClient.bodProd := clientOpts.bodProd opts |})
  end.

(** [func newHTTPClient(opts *clientOpts) client] *)
Definition newHTTPClient {E} `{Environment E} (opts : clientOpts.t E)
  : outcome (client E) :=
  let tr :=
    {| nethttp.TLSClientConfig := clientOpts.tlsConfig opts;
       nethttp.MaxIdleConnsPerHost := int_of_uint64 (clientOpts.maxConns opts);
       nethttp.DisableKeepAlives := clientOpts.disableKeepAlives opts;
       nethttp.Proxy := None;
       nethttp.DialContext := None;
       nethttp.TLSNextProto := None |} in
  let tr :=
    if negb (String.eqb (clientOpts.proxyUrl opts) "") then
      let urlProxy :=
        match URL_Parse (clientOpts.proxyUrl opts) with
        | inl u => Some u
        | inr _ => None
        end in
      {| nethttp.TLSClientConfig := nethttp.TLSClientConfig tr;
         nethttp.MaxIdleConnsPerHost := nethttp.MaxIdleConnsPerHost tr;
         nethttp.DisableKeepAlives := nethttp.DisableKeepAlives tr;
         nethttp.Proxy := Some (nethttp.ProxyURL urlProxy);
         nethttp.DialContext := nethttp.DialContext tr;
         nethttp.TLSNextProto := nethttp.TLSNextProto tr |}
    else tr in
  let tr :=
    {| nethttp.TLSClientConfig := nethttp.TLSClientConfig tr;
       nethttp.MaxIdleConnsPerHost := nethttp.MaxIdleConnsPerHost tr;
       nethttp.DisableKeepAlives := nethttp.DisableKeepAlives tr;
       nethttp.Proxy := nethttp.Proxy tr;
       nethttp.DialContext :=
         Some (countingDial (clientOpts.bytesRead opts)
                            (clientOpts.bytesWritten opts));
       nethttp.TLSNextProto := nethttp.TLSNextProto tr |} in
  let tr :=
    if clientOpts.HTTP2 opts then nethttp.http2_ConfigureTransport tr
    else
      {| nethttp.TLSClientConfig := nethttp.TLSClientConfig tr;
         nethttp.MaxIdleConnsPerHost := nethttp.MaxIdleConnsPerHost tr;
         nethttp.DisableKeepAlives := nethttp.DisableKeepAlives tr;
         nethttp.Proxy := nethttp.Proxy tr;
         nethttp.DialContext := nethttp.DialContext tr;
         nethttp.TLSNextProto := Some ∅ |} in
  let cl :=
    {| nethttp.Transport_ := tr;
       nethttp.Timeout := clientOpts.timeout opts;
       nethttp.CheckRedirect := Some nethttp.useLastResponse |} in
  match url_Parse (clientOpts.url opts) with
  | inr err =>
      (* opts.url guaranteed to be valid at this point *)
      Panic (Error err)
  | inl u =>
      Ret (stdClient
             {| httpClient.client := cl;
                httpClient.headers :=
                  headersToHTTPHeaders (clientOpts.headers opts);
                httpClient.url := Some u;
                httpClient.method := clientOpts.method opts;
                httpClient.body := clientOpts.body opts;
                httpClient.bodProd := clientOpts.bodProd opts |})
  end.

(** ** A scripted environment

    An environment to run the clients in: a clock, and the answers of the
    network to the submissions to come, each with the time it takes. *)

Inductive netAnswer : Type :=
| refuse (nanos : Z) (e : error)
| reply (nanos : Z) (status : N) (body : ReadCloser).

Record testEnv : Type := mkTestEnv {
  clock : Z;
  script : list netAnswer
}.

Fixpoint untilSlash (s : string) : string :=
  match s with
  | EmptyString => EmptyString
  | String c s' => if Ascii.eqb c "/" then EmptyString
                   else String c (untilSlash s')
  end.

Fixpoint fromSlash (s : string) : string :=
  match s with
  | EmptyString => "/"
  | String c s' => if Ascii.eqb c "/" then s else fromSlash s'
  end.

(** The parser of the scripted environment. It is not the parser of Go:
    it takes the URLs that the runs below are about, of the two schemes
    that the clients are for and with a host and a path, and refuses
    anything else, where [url.Parse] takes more (without a scheme, a
    string is a path to it) and looks closer at the host. *)
Definition test_url_Parse (s : string) : url_URL + error :=
  if strings_HasPrefix s "https://" then
    let rest := string_drop 8 s in
    inl {| Scheme := "https"; Host := untilSlash rest;
           RequestURI := fromSlash rest |}
  else if strings_HasPrefix s "http://" then
    let rest := string_drop 7 s in
    inl {| Scheme := "http"; Host := untilSlash rest;
           RequestURI := fromSlash rest |}
  else inr (errorString "parse: missing protocol scheme").

Definition test_answer (e : testEnv) : netAnswer * testEnv :=
  match script e with
  | [] => (refuse 0 (errorString "dial tcp: connection refused"), e)
  | a :: rest =>
      let nanos := match a with refuse n _ => n | reply n _ _ => n end in
      (a, {| clock := clock e + nanos; script := rest |})
  end.

#[export] Instance testEnvironment : Environment testEnv := {
  time_Now e := clock e;
  url_Parse := test_url_Parse;
  URL_Parse := test_url_Parse;
  HostClient_Do _ _ e :=
    match test_answer e with
    | (refuse _ err, e') => (inr err, e')
    | (reply _ st _, e') =>
        (inl {| fasthttp.StatusCode := Z.of_N st |}, e')
    end;
  Client_Do _ _ e :=
    match test_answer e with
    | (refuse _ err, e') => (inr err, e')
    | (reply _ st b, e') =>
        (inl {| nethttp.StatusCode := Z.of_N st; nethttp.RespBody := b |}, e')
    end
}.

(** A body producer that fails, and one that opens a stream of [s]. *)
Definition failingProducer : bodyStreamProducer testEnv :=
  fun e => (inr (errorString "open body.bin: no such file or directory"), e).

Definition streamProducer (s : string) : bodyStreamProducer testEnv :=
  fun e => (inl (NopCloser_NewReader s), e).

(** The scenario of the spec: POST of a fixed body to
    [http://example.test/items], no proxy. *)
Definition testOpts : clientOpts.t testEnv :=
  {| clientOpts.HTTP2 := false;
     clientOpts.maxConns := 125;
     clientOpts.timeout := 2000000000;
     clientOpts.tlsConfig := None;
     clientOpts.disableKeepAlives := false;
     clientOpts.headers := [mkHeader "Content-Type" "application/json"];
     clientOpts.url := "http://example.test/items";
     clientOpts.method := "POST";
     clientOpts.proxyUrl := "";
     clientOpts.body := Some "{}";
     clientOpts.bodProd := None;
     clientOpts.bytesRead := 1%positive;
     clientOpts.bytesWritten := 2%positive |}.

Definition testWorld (answers : list netAnswer) : World testEnv :=
  {| env := {| clock := 1000; script := answers |};
     pool := {| fasthttp.requestsOut := 0; fasthttp.responsesOut := 0 |};
     log := [] |}.

(** [do] of the client that a constructor makes; a panic of the
    constructor is the panic of the whole. *)
Definition construct_and_do {E} `{Environment E}
  (new : clientOpts.t E -> outcome (client E)) (opts : clientOpts.t E)
  (w : World E) : outcome doResult * World E :=
  match new opts with
  | Ret c => client_do c w
  | Panic msg => (Panic msg, w)
  end.

(** [opts] with a body producer in place of the fixed body. *)
Definition withBodProd {E} (prod : bodyStreamProducer E)
  (opts : clientOpts.t E) : clientOpts.t E :=
  {| clientOpts.HTTP2 := clientOpts.HTTP2 opts;
     clientOpts.maxConns := clientOpts.maxConns opts;
     clientOpts.timeout := clientOpts.timeout opts;
     clientOpts.tlsConfig := clientOpts.tlsConfig opts;
     clientOpts.disableKeepAlives := clientOpts.disableKeepAlives opts;
     clientOpts.headers := clientOpts.headers opts;
     clientOpts.url := clientOpts.url opts;
     clientOpts.method := clientOpts.method opts;
     clientOpts.proxyUrl := clientOpts.proxyUrl opts;
     clientOpts.body := None;
     clientOpts.bodProd := Some prod;
     clientOpts.bytesRead := clientOpts.bytesRead opts;
     clientOpts.bytesWritten := clientOpts.bytesWritten opts |}.

(** [opts] with another proxy URL. *)
Definition withProxyUrl {E} (proxyUrl : string) (opts : clientOpts.t E)
  : clientOpts.t E :=
  {| clientOpts.HTTP2 := clientOpts.HTTP2 opts;
     clientOpts.maxConns := clientOpts.maxConns opts;
     clientOpts.timeout := clientOpts.timeout opts;
     clientOpts.tlsConfig := clientOpts.tlsConfig opts;
     clientOpts.disableKeepAlives := clientOpts.disableKeepAlives opts;
     clientOpts.headers := clientOpts.headers opts;
     clientOpts.url := clientOpts.url opts;
     clientOpts.method := clientOpts.method opts;
     clientOpts.proxyUrl := proxyUrl;
     clientOpts.body := clientOpts.body opts;
     clientOpts.bodProd := clientOpts.bodProd opts;
     clientOpts.bytesRead := clientOpts.bytesRead opts;
     clientOpts.bytesWritten := clientOpts.bytesWritten opts |}.

(** [opts] with another header list. *)
Definition withHeaders {E} (h : headersList) (opts : clientOpts.t E)
  : clientOpts.t E :=
  {| clientOpts.HTTP2 := clientOpts.HTTP2 opts;
     clientOpts.maxConns := clientOpts.maxConns opts;
     clientOpts.timeout := clientOpts.timeout opts;
     clientOpts.tlsConfig := clientOpts.tlsConfig opts;
     clientOpts.disableKeepAlives := clientOpts.disableKeepAlives opts;
     clientOpts.headers := h;
     clientOpts.url := clientOpts.url opts;
     clientOpts.method := clientOpts.method opts;
     clientOpts.proxyUrl := clientOpts.proxyUrl opts;
     clientOpts.body := clientOpts.body opts;
     clientOpts.bodProd := clientOpts.bodProd opts;
     clientOpts.bytesRead := clientOpts.bytesRead opts;
     clientOpts.bytesWritten := clientOpts.bytesWritten opts |}.

(** What [test_url_Parse] makes of the URL of [testOpts]. *)
Definition testURL : url_URL :=
  {| Scheme := "http"; Host := "example.test"; RequestURI := "/items" |}.

(** Options for an HTTPS target over HTTP/2, with a TLS configuration and
    without keep-alive. *)
Definition secureOpts : clientOpts.t testEnv :=
  {| clientOpts.HTTP2 := true;
     clientOpts.maxConns := 64;
     clientOpts.timeout := 5000000000;
     clientOpts.tlsConfig :=
       Some {| InsecureSkipVerify := true; ServerName := "example.test";
               NextProtos := ["http/1.1"] |};
     clientOpts.disableKeepAlives := true;
     clientOpts.headers := [];
     clientOpts.url := "https://example.test/";
     clientOpts.method := "GET";
     clientOpts.proxyUrl := "";
     clientOpts.body := Some "";
     clientOpts.bodProd := None;
     clientOpts.bytesRead := 1%positive;
     clientOpts.bytesWritten := 2%positive |}.

(** ** The vocabulary of the specification *)

(** The time between two states of the environment as [do] reports it:
    [uint64(time.Since(start).Nanoseconds() / 1000)]. *)
Definition elapsedMicros {E} `{Environment E} (e0 e1 : E) : Z :=
  uint64_of_int64 (Z.quot (time_Sub (time_Now e1) (time_Now e0)) 1000).

(** What the transport says to a submission: an error, or a response with
    its status and, for net/http, with its body. *)
Inductive answer : Type :=
| failedWith (terr : error)
| answeredBy (status : Z) (body : option ReadCloser).

(** The submission of [do] in [w], for either variant: the state of the
    environment before it, the answer of the transport, and the state of
    the environment after it. [None] when [do] submits nothing. *)
Definition client_submit {E} `{Environment E} (c : client E) (w : World E)
  : option (E * answer * E) :=
  match c with
  | fastClient fc =>
      match fasthttpClient.submission fc w with
      | None => None
      | Some (req, e0) =>
          let '(r, e1) := HostClient_Do (fasthttpClient.client fc) req e0 in
          Some (e0,
                match r with
                | inr terr => failedWith terr
                | inl resp => answeredBy (fasthttp.StatusCode resp) None
                end,
                e1)
      end
  | stdClient sc =>
      match httpClient.submission sc w with
      | None => None
      | Some (req, e0) =>
          let '(r, e1) := Client_Do (httpClient.client sc) req e0 in
          Some (e0,
                match r with
                | inr terr => failedWith terr
                | inl resp =>
                    answeredBy (nethttp.StatusCode resp)
                               (Some (nethttp.RespBody resp))
                end,
                e1)
      end
  end.

(** The pools once [do] has acquired its request and its response. *)
Definition acquired (p : fasthttp.pools) : fasthttp.pools :=
  snd (fasthttp.AcquireResponse (snd (fasthttp.AcquireRequest p))).

(** The transports answer with statuses that are not negative, as both
    libraries read the status of a response as an unsigned number. *)
Definition statuses_valid (E : Type) `{Environment E} : Prop :=
  (forall hc req e resp e',
      HostClient_Do hc req e = (inl resp, e') ->
      0 <= fasthttp.StatusCode resp)
  /\ (forall cl req e resp e',
         Client_Do cl req e = (inl resp, e') ->
         0 <= nethttp.StatusCode resp).

(** Neither the reading nor the closing of the body fails. *)
Definition body_sound (body : option ReadCloser) : Prop :=
  match body with
  | None => True
  | Some b => rc_readErr b = None /\ rc_closeErr b = None
  end.

Definition client_body {E} (c : client E) : option string :=
  match c with
  | fastClient fc => fasthttpClient.body fc
  | stdClient sc => httpClient.body sc
  end.

Definition client_bodProd {E} (c : client E)
  : option (bodyStreamProducer E) :=
  match c with
  | fastClient fc => fasthttpClient.bodProd fc
  | stdClient sc => httpClient.bodProd sc
  end.

(** The events of the transports in a log. *)
Definition is_submission (ev : event) : bool :=
  match ev with
  | evHostClientDo _ => true
  | evClientDo _ => true
  | _ => false
  end.

(** The value of the last header of [h] whose key [same] accepts. *)
Definition lastValue (same : string -> bool) (h : headersList)
  : option string :=
  value <$> find (fun hd => same (key hd)) (rev h).

(** An ASCII letter in lower case, any other byte as it is. *)
Definition lowerASCII (c : ascii) : ascii :=
  match c with
  | "A" => "a" | "B" => "b" | "C" => "c" | "D" => "d" | "E" => "e"
  | "F" => "f" | "G" => "g" | "H" => "h" | "I" => "i" | "J" => "j"
  | "K" => "k" | "L" => "l" | "M" => "m" | "N" => "n" | "O" => "o"
  | "P" => "p" | "Q" => "q" | "R" => "r" | "S" => "s" | "T" => "t"
  | "U" => "u" | "V" => "v" | "W" => "w" | "X" => "x" | "Y" => "y"
  | "Z" => "z"
  | _ => c
  end%char.

(** Two header names that differ at most in the case of their ASCII
    letters, which makes them one name in HTTP. *)
Fixpoint equalFoldASCII (s t : string) : bool :=
  match s, t with
  | EmptyString, EmptyString => true
  | String a s', String b t' =>
      Ascii.eqb (lowerASCII a) (lowerASCII b) && equalFoldASCII s' t'
  | _, _ => false
  end.

(** The names of the headers that fasthttp manages itself, rather than
    keeping the value it is given: Cookie, Content-Length and
    Transfer-Encoding, and Trailer in later versions of the library. *)
Definition managedByFasthttp (k : string) : bool :=
  equalFoldASCII k "Cookie" || equalFoldASCII k "Content-Length"
  || equalFoldASCII k "Transfer-Encoding" || equalFoldASCII k "Trailer".

(** A value with a carriage return or a line feed in it. *)
Fixpoint hasLineBreak (v : string) : bool :=
  match v with
  | EmptyString => false
  | String c v' =>
      Ascii.eqb c "010" || Ascii.eqb c "013" || hasLineBreak v'
  end.

(** C9 in the words of the spec: in the container that an adapter makes
    of a header list, the value under a key is the value of the last
    header of the list with this key, the keys being those of the
    transport (as they are written for [http.Header], without regard to
    the case of the letters for fasthttp). *)
Definition last_write_wins_claim : Prop :=
  forall (h : headersList) (k : string),
    headersToHTTPHeaders h !! k
    = (fun v => [v]) <$> lastValue (String.eqb k) h
    /\ match headersToFastHTTPHeaders h with
       | None => h = []
       | Some res =>
           fasthttp.RequestHeader_Peek k res
           = default "" (lastValue (equalFoldASCII k) h)
       end.

(** [opts] with another value of [disableKeepAlives]. *)
Definition withDisableKeepAlives {E} (b : bool) (opts : clientOpts.t E)
  : clientOpts.t E :=
  {| clientOpts.HTTP2 := clientOpts.HTTP2 opts;
     clientOpts.maxConns := clientOpts.maxConns opts;
     clientOpts.timeout := clientOpts.timeout opts;
     clientOpts.tlsConfig := clientOpts.tlsConfig opts;
     clientOpts.disableKeepAlives := b;
     clientOpts.headers := clientOpts.headers opts;
     clientOpts.url := clientOpts.url opts;
     clientOpts.method := clientOpts.method opts;
     clientOpts.proxyUrl := clientOpts.proxyUrl opts;
     clientOpts.body := clientOpts.body opts;
     clientOpts.bodProd := clientOpts.bodProd opts;
     clientOpts.bytesRead := clientOpts.bytesRead opts;
     clientOpts.bytesWritten := clientOpts.bytesWritten opts |}.

(** The dial function of a client, of either variant. *)
Definition client_dial {E} (c : client E) : option dialer :=
  match c with
  | fastClient fc => Some (fasthttp.Dial (fasthttpClient.client fc))
  | stdClient sc =>
      nethttp.DialContext (nethttp.Transport_ (httpClient.client sc))
  end.

(** The selection of the dial function in the words of the spec, where
    the proxy dialers get the proxy URL with its scheme prefix stripped. *)
Definition stripSchemePrefix (s : string) : string :=
  if strings_HasPrefix s "http://" then strings_TrimPrefix s "http://"
  else strings_TrimPrefix s "https://".

Definition dial_by_prefix (proxyUrl : string) (bytesRead bytesWritten : counter)
  : dialer :=
  if String.eqb proxyUrl "" then countingDial bytesRead bytesWritten
  else if strings_Contains proxyUrl "socks5"
       then socksDial (strings_TrimPrefix proxyUrl "socks5://")
       else httpProxyDial (stripSchemePrefix proxyUrl).

(** C4 in the words of the spec: the dial function of the client that
    [newFastHTTPClient] builds is [dial_by_prefix] of the proxy URL. *)
Definition dial_claim (E : Type) `{Environment E} : Prop :=
  forall (opts : clientOpts.t E) (c : fasthttpClient.t E),
    newFastHTTPClient opts = Ret (fastClient c) ->
    fasthttp.Dial (fasthttpClient.client c)
    = dial_by_prefix (clientOpts.proxyUrl opts) (clientOpts.bytesRead opts)
        (clientOpts.bytesWritten opts).

(** C6 in the words of the spec: with a proxy URL, the dial function of
    a client of either variant is not the counting one, and traffic on its
    connections leaves the counters as they are. *)
Definition proxied_uncounted_claim (E : Type) `{Environment E} : Prop :=
  forall (opts : clientOpts.t E) (c : client E) (d : dialer),
    clientOpts.proxyUrl opts <> "" ->
    newFastHTTPClient opts = Ret c \/ newHTTPClient opts = Ret c ->
    client_dial c = Some d ->
    is_counting d = false
    /\ forall nread nwritten σ, conn_transfer d nread nwritten σ = σ.

(** C7 in the words of the spec, for [disableKeepAlives]: the option
    takes effect on what either constructor builds, that is, the client
    built with the option set is not the client built without it. *)
Definition keepAlives_claim (E : Type) `{Environment E} : Prop :=
  forall (new : clientOpts.t E -> outcome (client E)),
    new = newFastHTTPClient \/ new = newHTTPClient ->
    forall opts c c',
      new (withDisableKeepAlives true opts) = Ret c ->
      new (withDisableKeepAlives false opts) = Ret c' ->
      c <> c'.

(** A response body whose reading and whose closing both fail. *)
Definition brokenBody : ReadCloser :=
  {| rc_pending := "partial";
     rc_readErr := Some (errorString "unexpected EOF");
     rc_closeErr := Some (errorString "use of closed network connection") |}.

(** [opts] with another maximum of connections. *)
Definition withMaxConns {E} (n : Z) (opts : clientOpts.t E)
  : clientOpts.t E :=
  {| clientOpts.HTTP2 := clientOpts.HTTP2 opts;
     clientOpts.maxConns := n;
     clientOpts.timeout := clientOpts.timeout opts;
     clientOpts.tlsConfig := clientOpts.tlsConfig opts;
     clientOpts.disableKeepAlives := clientOpts.disableKeepAlives opts;
     clientOpts.headers := clientOpts.headers opts;
     clientOpts.url := clientOpts.url opts;
     clientOpts.method := clientOpts.method opts;
     clientOpts.proxyUrl := clientOpts.proxyUrl opts;
     clientOpts.body := clientOpts.body opts;
     clientOpts.bodProd := clientOpts.bodProd opts;
     clientOpts.bytesRead := clientOpts.bytesRead opts;
     clientOpts.bytesWritten := clientOpts.bytesWritten opts |}.

(** ** Runs of several calls *)

(** The world after [n] calls of [do] in a row on one client, the results
    dropped; a panic ends the run. *)
Fixpoint do_times {E} `{Environment E} (n : nat) (c : client E)
  (w : World E) : World E :=
  match n with
  | O => w
  | S n' =>
      match client_do c w with
      | (Ret _, w') => do_times n' c w'
      | (Panic _, w') => w'
      end
  end.

(** The submissions to a transport in a log. *)
Definition submissions (l : list event) : list event :=
  filter (fun ev => is_submission ev) l.

(** A body producer that fails in every state of the environment. *)
Definition alwaysFails {E} (prod : bodyStreamProducer E) : Prop :=
  forall e, exists bserr e', prod e = (inr bserr, e').

(** The keys of a header list, in its order. *)
Definition keys (h : headersList) : list string := map key h.

(** * Properties *)

(** ** The steps of [do] *)

Section Steps.
Context {E : Type} `{Environment E}.

Lemma fast_fire_eq (c : fasthttpClient.t E) req resp (w : World E) r e1 :
  HostClient_Do (fasthttpClient.client c) req (env w) = (r, e1) ->
  fasthttpClient.fire c req resp w =
  (Ret (match r with inr _ => -1 | inl rs => fasthttp.StatusCode rs end,
        elapsedMicros (env w) e1,
        match r with inr terr => Some terr | inl _ => None end),
   {| env := e1;
      pool := fasthttp.ReleaseResponse resp
                (fasthttp.ReleaseRequest req (pool w));
      log := (log w ++ [evHostClientDo req])%list |}).
Proof.
  intros HDo. unfold fasthttpClient.fire. rewrite HDo.
  destruct r; reflexivity.
Qed.

Lemma fast_do_submits (c : fasthttpClient.t E) (w : World E) req e0 :
  fasthttpClient.submission c w = Some (req, e0) ->
  fasthttpClient.do c w =
  fasthttpClient.fire c req fasthttp.emptyResponse
    {| env := e0; pool := acquired (pool w); log := log w |}.
Proof.
  unfold fasthttpClient.submission, fasthttpClient.do. cbn.
  destruct (fasthttpClient.body c) as [b|].
  - intros [= <- <-]. reflexivity.
  - destruct (fasthttpClient.bodProd c) as [prod|]; [|discriminate].
    destruct (prod (env w)) as [[bs|bserr] e]; [|discriminate].
    intros [= <- <-]. reflexivity.
Qed.

Lemma std_fire_eq (c : httpClient.t E) req (w : World E) r e1 :
  Client_Do (httpClient.client c) req (env w) = (r, e1) ->
  httpClient.fire c req w =
  match r with
  | inr terr =>
      (Ret (-1, elapsedMicros (env w) e1, Some terr),
       {| env := e1; pool := pool w;
          log := (log w ++ [evClientDo req])%list |})
  | inl resp =>
      let b := nethttp.RespBody resp in
      (Ret (nethttp.StatusCode resp, elapsedMicros (env w) e1,
            match rc_closeErr b with
            | Some cerr => Some cerr
            | None => rc_readErr b
            end),
       {| env := e1; pool := pool w;
          log := (((log w ++ [evClientDo req])
                     ++ [evBodyRead (Z.of_nat (String.length (rc_pending b)))])
                    ++ [evBodyClose ""])%list |})
  end.
Proof.
  intros HDo. unfold httpClient.fire. rewrite HDo.
  destruct r as [resp|terr]; [|reflexivity].
  cbn. destruct (rc_closeErr (nethttp.RespBody resp)),
         (rc_readErr (nethttp.RespBody resp)); reflexivity.
Qed.

Lemma std_do_submits (c : httpClient.t E) (w : World E) req e0 :
  httpClient.submission c w = Some (req, e0) ->
  httpClient.do c w =
  httpClient.fire c req {| env := e0; pool := pool w; log := log w |}.
Proof.
  unfold httpClient.submission, httpClient.do.
  destruct (httpClient.body c) as [b|].
  - intros [= <- <-]. destruct w; reflexivity.
  - destruct (httpClient.bodProd c) as [prod|]; [|discriminate].
    destruct (prod (env w)) as [[bs|bserr] e]; [|discriminate].
    intros [= <- <-]. reflexivity.
Qed.

End Steps.

(** ** The results of [do] *)

(** C1. For a call of [do] on a client of either variant that gets to
    submit its request: when the transport answers with an error, [do]
    returns the code -1, that error, and the time that the submission took,
    in microseconds; when the transport answers with a response, [do]
    returns the status of the response as the code (a number that is not
    negative, whatever its class) and the time taken, and the error is
    [nil] unless the reading or the closing of the body failed. *)
Theorem do_transport_outcome {E} `{Environment E}
  (c : client E) (w : World E) (e0 e1 : E) (a : answer) :
  statuses_valid E ->
  client_submit c w = Some (e0, a, e1) ->
  match a with
  | failedWith terr =>
      fst (client_do c w) = Ret (-1, elapsedMicros e0 e1, Some terr)
  | answeredBy status body =>
      exists err,
        fst (client_do c w) = Ret (status, elapsedMicros e0 e1, err)
        /\ 0 <= status
        /\ (body_sound body -> err = None)
  end.
Proof.
  intros [HvalidA HvalidB] Hsub.
  destruct c as [fc|sc]; unfold client_submit in Hsub; unfold client_do.
  - destruct (fasthttpClient.submission fc w) as [[req e]|] eqn:Hs;
      [|discriminate].
    destruct (HostClient_Do (fasthttpClient.client fc) req e) as [r e']
      eqn:HDo.
    injection Hsub as <- <- <-.
    rewrite (fast_do_submits _ _ _ _ Hs).
    rewrite (fast_fire_eq _ _ _ _ r e') by exact HDo.
    destruct r as [resp|terr]; cbn.
    + exists None. split; [reflexivity|]. split; [|reflexivity].
      eapply HvalidA; eassumption.
    + reflexivity.
  - destruct (httpClient.submission sc w) as [[req e]|] eqn:Hs;
      [|discriminate].
    destruct (Client_Do (httpClient.client sc) req e) as [r e'] eqn:HDo.
    injection Hsub as <- <- <-.
    rewrite (std_do_submits _ _ _ _ Hs).
    rewrite (std_fire_eq _ _ _ r e') by exact HDo.
    destruct r as [resp|terr]; cbn.
    + eexists. split; [reflexivity|]. split.
      * eapply HvalidB; eassumption.
      * intros [Hr Hc]. rewrite Hc, Hr. reflexivity.
    + reflexivity.
Qed.

Lemma testEnvironment_statuses_valid : statuses_valid testEnv.
Proof.
  split; intros ? req e resp e'; cbn; unfold test_answer;
    destruct (script e) as [|[n err|n st b] rest]; intros [= <- _]; cbn; lia.
Qed.

Lemma do_transport_outcome_witness :
  let w := testWorld [reply 1500000 404 (NopCloser_NewReader "not found")] in
  let w' := testWorld [refuse 700000 (errorString "i/o timeout")] in
  statuses_valid testEnv
  /\ (exists c,
         newHTTPClient testOpts = Ret c
         /\ client_submit c w
            = Some (env w,
                    answeredBy 404 (Some (NopCloser_NewReader "not found")),
                    {| clock := 1501000; script := [] |})
         /\ exists err,
             fst (client_do c w) = Ret (404, 1500, err)
             /\ 0 <= 404
             /\ (body_sound (Some (NopCloser_NewReader "not found")) ->
                 err = None))
  /\ (exists c,
         newFastHTTPClient testOpts = Ret c
         /\ client_submit c w'
            = Some (env w', failedWith (errorString "i/o timeout"),
                    {| clock := 701000; script := [] |})
         /\ fst (client_do c w')
            = Ret (-1, 700, Some (errorString "i/o timeout"))).
Proof.
  intros w w'. split; [exact testEnvironment_statuses_valid|]. split.
  - eexists. split; [reflexivity|].
    match goal with
    | |- ?S = _ /\ _ =>
        assert (Hs : S = Some (env w,
                               answeredBy 404
                                 (Some (NopCloser_NewReader "not found")),
                               {| clock := 1501000; script := [] |}))
          by (vm_compute; reflexivity)
    end.
    split; [exact Hs|].
    exact (do_transport_outcome _ w _ _ _ testEnvironment_statuses_valid Hs).
  - eexists. split; [reflexivity|].
    match goal with
    | |- ?S = _ /\ _ =>
        assert (Hs : S = Some (env w',
                               failedWith (errorString "i/o timeout"),
                               {| clock := 701000; script := [] |}))
          by (vm_compute; reflexivity)
    end.
    split; [exact Hs|].
    exact (do_transport_outcome _ w' _ _ _ testEnvironment_statuses_valid Hs).
Defined.

(** C2. For a client of either variant that has a body producer and no
    fixed body: when the producer fails, [do] returns (0, 0, the error of
    the producer), no submission to a transport is logged, and the
    environment is left as the producer left it. *)
Theorem do_body_factory_failure {E} `{Environment E}
  (c : client E) (w : World E) (prod : bodyStreamProducer E)
  (bserr : error) (e' : E) :
  client_body c = None ->
  client_bodProd c = Some prod ->
  prod (env w) = (inr bserr, e') ->
  fst (client_do c w) = Ret (0, 0, Some bserr)
  /\ log (snd (client_do c w)) = log w
  /\ env (snd (client_do c w)) = e'
  /\ client_submit c w = None.
Proof.
  destruct c as [fc|sc]; cbn [client_body client_bodProd client_do];
    intros Hbody Hprod Hfail.
  - unfold client_submit, fasthttpClient.submission, fasthttpClient.do.
    cbn [fasthttp.AcquireRequest fasthttp.AcquireResponse].
    rewrite Hbody, Hprod. cbn [env setPool]. rewrite Hfail.
    repeat split.
  - unfold client_submit, httpClient.submission, httpClient.do.
    rewrite Hbody, Hprod, Hfail. repeat split.
Qed.

Lemma do_body_factory_failure_witness :
  let w := testWorld [reply 1500000 200 (NopCloser_NewReader "ok")] in
  let bserr := errorString "open body.bin: no such file or directory" in
  let run (built : outcome (client testEnv)) :=
    exists c,
      built = Ret c
      /\ client_body c = None
      /\ client_bodProd c = Some failingProducer
      /\ failingProducer (env w) = (inr bserr, env w)
      /\ fst (client_do c w) = Ret (0, 0, Some bserr)
      /\ log (snd (client_do c w)) = log w
      /\ env (snd (client_do c w)) = env w
      /\ client_submit c w = None in
  run (newFastHTTPClient (withBodProd failingProducer testOpts))
  /\ run (newHTTPClient (withBodProd failingProducer testOpts)).
Proof.
  intros w bserr run. split.
  - eexists. split; [reflexivity|].
    split; [reflexivity|]. split; [reflexivity|]. split; [reflexivity|].
    apply (do_body_factory_failure _ w failingProducer bserr (env w));
      reflexivity.
  - eexists. split; [reflexivity|].
    split; [reflexivity|]. split; [reflexivity|]. split; [reflexivity|].
    apply (do_body_factory_failure _ w failingProducer bserr (env w));
      reflexivity.
Defined.

(** ** The pooled request and response of Variant A *)

(** The pools after [do]: as before it when [do] got to submit its
    request, and with the acquired pair still out when it did not. *)
Lemma fast_do_pools {E} `{Environment E} (c : fasthttpClient.t E)
  (w : World E) :
  pool (snd (fasthttpClient.do c w)) =
  match fasthttpClient.submission c w with
  | Some _ => pool w
  | None => acquired (pool w)
  end.
Proof.
  destruct (fasthttpClient.submission c w) as [[req e0]|] eqn:Hs.
  - rewrite (fast_do_submits _ _ _ _ Hs).
    destruct (HostClient_Do (fasthttpClient.client c) req e0) as [r e1]
      eqn:HDo.
    rewrite (fast_fire_eq _ _ _ _ r e1) by exact HDo.
    destruct w as [e [nreq nresp] l]. reflexivity.
  - revert Hs. unfold fasthttpClient.submission, fasthttpClient.do.
    cbn [fasthttp.AcquireRequest fasthttp.AcquireResponse].
    destruct (fasthttpClient.body c); [discriminate|].
    destruct (fasthttpClient.bodProd c) as [prod|]; [|reflexivity].
    cbn [env setPool].
    destruct (prod (env w)) as [[bs|bserr] e]; [discriminate|reflexivity].
Qed.

(** C3. The early return of [do] in Variant A leaves the pooled pair out:
    on the client made for a body producer that fails, [do] returns
    (0, 0, the error of the producer) with one request and one response
    acquired and not released, where there was none before the call. *)
Theorem fast_do_body_error_leaves_pair_out :
  let w := testWorld [reply 1500000 200 (NopCloser_NewReader "ok")] in
  exists c,
    newFastHTTPClient (withBodProd failingProducer testOpts)
    = Ret (fastClient c)
    /\ pool w = {| fasthttp.requestsOut := 0; fasthttp.responsesOut := 0 |}
    /\ fst (fasthttpClient.do c w)
       = Ret (0, 0,
              Some (errorString "open body.bin: no such file or directory"))
    /\ pool (snd (fasthttpClient.do c w))
       = {| fasthttp.requestsOut := 1; fasthttp.responsesOut := 1 |}.
Proof.
  intros w. eexists. split; [reflexivity|].
  repeat split.
Qed.

(** ** The dial function of Variant A *)

Lemma strings_Replace1_absent (s old new : string) :
  strings_Contains s old = false -> strings_Replace1 s old new = s.
Proof.
  induction s as [|c s IH]; cbn; intros Hc.
  - apply orb_false_elim in Hc as [-> _]. reflexivity.
  - apply orb_false_elim in Hc as [Hp Hc]. rewrite Hp.
    rewrite IH by exact Hc. reflexivity.
Qed.

(** C4, as the code has it. When the URL of the client parses,
    [newFastHTTPClient] returns a client whose dial function is chosen by
    the proxy URL alone: the counting dial on the two counters for the
    empty proxy URL; the SOCKS5 dialer when the proxy URL contains
    "socks5", on the proxy URL without its leftmost "socks5://"; the
    HTTP proxy dialer for any other proxy URL, on the proxy URL without
    its leftmost "https://" and then without its leftmost "http://". For a
    proxy URL that starts with one of the three and has no other scheme
    marker further on, that is the proxy URL without this prefix. *)
Theorem fast_dial_selection {E} `{Environment E}
  (opts : clientOpts.t E) (u : url_URL) :
  url_Parse (clientOpts.url opts) = inl u ->
  exists c,
    newFastHTTPClient opts = Ret (fastClient c)
    /\ let p := clientOpts.proxyUrl opts in
       let dial := fasthttp.Dial (fasthttpClient.client c) in
       (p = "" ->
        dial = countingDial (clientOpts.bytesRead opts)
                            (clientOpts.bytesWritten opts))
       /\ (p <> "" -> strings_Contains p "socks5" = true ->
           dial = socksDial (strings_Replace1 p "socks5://" ""))
       /\ (p <> "" -> strings_Contains p "socks5" = false ->
           dial = httpProxyDial
                    (strings_Replace1 (strings_Replace1 p "https://" "")
                       "http://" ""))
       /\ (forall rest, p = "socks5://" +:+ rest -> dial = socksDial rest)
       /\ (forall rest,
              p = "http://" +:+ rest ->
              strings_Contains p "socks5" = false ->
              strings_Contains rest "https://" = false ->
              dial = httpProxyDial rest)
       /\ (forall rest,
              p = "https://" +:+ rest ->
              strings_Contains p "socks5" = false ->
              strings_Contains rest "http://" = false ->
              dial = httpProxyDial rest).
Proof.
  intros Hu. unfold newFastHTTPClient. rewrite Hu.
  eexists. split; [reflexivity|].
  cbn [fasthttpClient.client fasthttp.Dial].
  repeat apply conj.
  - intros ->. reflexivity.
  - intros Hp Hs. apply String.eqb_neq in Hp. rewrite Hp, Hs. reflexivity.
  - intros Hp Hs. apply String.eqb_neq in Hp. rewrite Hp, Hs. reflexivity.
  - intros rest ->. vm_compute. reflexivity.
  - intros rest -> Hs Hrest. rewrite Hs.
    assert (Hin : strings_Contains ("http://" +:+ rest) "https://" = false)
      by (etransitivity; [|exact Hrest]; vm_compute; reflexivity).
    rewrite (strings_Replace1_absent _ "https://") by exact Hin.
    vm_compute. reflexivity.
  - intros rest -> Hs Hrest. rewrite Hs.
    replace (strings_Replace1 ("https://" +:+ rest) "https://" "")
      with rest by (vm_compute; reflexivity).
    rewrite strings_Replace1_absent by exact Hrest.
    vm_compute. reflexivity.
Qed.

Lemma fast_dial_selection_witness :
  let opts := withProxyUrl "socks5://gw.test:1080" testOpts in
  url_Parse (clientOpts.url opts) = inl testURL
  /\ exists c,
      newFastHTTPClient opts = Ret (fastClient c)
      /\ fasthttp.Dial (fasthttpClient.client c) = socksDial "gw.test:1080".
Proof.
  intros opts.
  assert (Hu : url_Parse (clientOpts.url opts) = inl testURL)
    by reflexivity.
  split; [exact Hu|].
  destruct (fast_dial_selection opts testURL Hu)
    as (c & Hc & _ & _ & _ & Hsocks & _).
  exists c. split; [exact Hc|]. apply Hsocks. reflexivity.
Defined.

(** C4, in the words of the spec, fails. For the proxy URL
    "https://proxy.test:8443/http://gw" the HTTP proxy dialer gets
    "proxy.test:8443/gw", and not the proxy URL without its prefix,
    "proxy.test:8443/http://gw". For the proxy URL
    " socks5://gw.test:1080", which starts with a space, the SOCKS5
    dialer gets " gw.test:1080", and not the proxy URL as it is. *)
Lemma fast_dial_not_by_prefix :
  let p := "https://proxy.test:8443/http://gw" in
  let q := " socks5://gw.test:1080" in
  let r := clientOpts.bytesRead testOpts in
  let w := clientOpts.bytesWritten testOpts in
  (exists c,
      newFastHTTPClient (withProxyUrl p testOpts) = Ret (fastClient c)
      /\ fasthttp.Dial (fasthttpClient.client c)
         = httpProxyDial "proxy.test:8443/gw"
      /\ dial_by_prefix p r w = httpProxyDial "proxy.test:8443/http://gw")
  /\ (exists c,
         newFastHTTPClient (withProxyUrl q testOpts) = Ret (fastClient c)
         /\ fasthttp.Dial (fasthttpClient.client c)
            = socksDial " gw.test:1080"
         /\ dial_by_prefix q r w = socksDial " socks5://gw.test:1080")
  /\ ~ dial_claim testEnv.
Proof.
  intros p q r w. split; [|split].
  - eexists. split; [reflexivity|].
    split; vm_compute; reflexivity.
  - eexists. split; [reflexivity|].
    split; vm_compute; reflexivity.
  - intros Hclaim.
    eassert (Hc : newFastHTTPClient (withProxyUrl p testOpts)
                  = Ret (fastClient _)) by reflexivity.
    specialize (Hclaim _ _ Hc). vm_compute in Hclaim.
    discriminate Hclaim.
Qed.

(** ** The header adapters *)

Lemma lastValue_nil (same : string -> bool) : lastValue same [] = None.
Proof. reflexivity. Qed.

Lemma lastValue_snoc (same : string -> bool) (h : headersList) (hd : header) :
  lastValue same (h ++ [hd])%list =
  if same (key hd) then Some (value hd) else lastValue same h.
Proof.
  unfold lastValue. rewrite rev_app_distr. cbn.
  destruct (same (key hd)); reflexivity.
Qed.

Lemma peekArg_setArg (l : list (string * string)) (k v k0 : string) :
  fasthttp.peekArg (fasthttp.setArg l k v) k0 =
  if String.eqb k0 k then v else fasthttp.peekArg l k0.
Proof.
  induction l as [|[k' v'] l IH]; cbn.
  - destruct (String.eqb k0 k); reflexivity.
  - destruct (String.eqb_spec k k') as [->|Hne]; cbn.
    + destruct (String.eqb k0 k'); reflexivity.
    + rewrite IH. destruct (String.eqb_spec k0 k') as [->|Hne0].
      * apply String.eqb_neq in Hne. rewrite String.eqb_sym, Hne.
        reflexivity.
      * reflexivity.
Qed.

Lemma peekArg_delAllArgs (l : list (string * string)) (k k0 : string) :
  fasthttp.peekArg (fasthttp.delAllArgs l k) k0 =
  if String.eqb k0 k then "" else fasthttp.peekArg l k0.
Proof.
  induction l as [|[k' v'] l IH]; cbn.
  - destruct (String.eqb k0 k); reflexivity.
  - destruct (String.eqb_spec k k') as [->|Hne]; cbn.
    + rewrite IH. destruct (String.eqb k0 k'); reflexivity.
    + rewrite IH. destruct (String.eqb_spec k0 k') as [->|Hne0].
      * apply String.eqb_neq in Hne. rewrite String.eqb_sym, Hne.
        reflexivity.
      * reflexivity.
Qed.

(** *** The names of the headers *)

Lemma toLower_lowerASCII (c : ascii) : fasthttp.toLower c = lowerASCII c.
Proof. destruct c as [[] [] [] [] [] [] [] []]; reflexivity. Qed.

Lemma lowerASCII_toUpper (c : ascii) :
  lowerASCII (fasthttp.toUpper c) = lowerASCII c.
Proof. destruct c as [[] [] [] [] [] [] [] []]; reflexivity. Qed.

Lemma toUpper_lowerASCII (c : ascii) :
  fasthttp.toUpper (lowerASCII c) = fasthttp.toUpper c.
Proof. destruct c as [[] [] [] [] [] [] [] []]; reflexivity. Qed.

Lemma lowerASCII_dash (c : ascii) :
  Ascii.eqb (lowerASCII c) "-" = Ascii.eqb c "-".
Proof. destruct c as [[] [] [] [] [] [] [] []]; reflexivity. Qed.

Lemma toUpper_eqb (a b : ascii) :
  Ascii.eqb (fasthttp.toUpper a) (fasthttp.toUpper b)
  = Ascii.eqb (lowerASCII a) (lowerASCII b).
Proof.
  destruct (Ascii.eqb_spec (lowerASCII a) (lowerASCII b)) as [Heq|Hne].
  - apply Ascii.eqb_eq.
    rewrite <- (toUpper_lowerASCII a), <- (toUpper_lowerASCII b), Heq.
    reflexivity.
  - apply Ascii.eqb_neq. intros Heq. apply Hne.
    rewrite <- (lowerASCII_toUpper a), <- (lowerASCII_toUpper b), Heq.
    reflexivity.
Qed.

(** Two names have the same normal form exactly when they differ at most
    in the case of their letters. *)
Lemma normalizeFrom_eqb (up : bool) (s t : string) :
  String.eqb (fasthttp.normalizeFrom up s) (fasthttp.normalizeFrom up t)
  = equalFoldASCII s t.
Proof.
  revert up t. induction s as [|a s IH]; intros up [|b t].
  - reflexivity.
  - destruct up; cbn; [reflexivity|].
    destruct (Ascii.eqb b "-"); reflexivity.
  - destruct up; cbn; [reflexivity|].
    destruct (Ascii.eqb a "-"); reflexivity.
  - destruct up; cbn [fasthttp.normalizeFrom equalFoldASCII].
    + cbn [String.eqb]. rewrite toUpper_eqb, IH. reflexivity.
    + destruct (Ascii.eqb_spec a "-") as [->|Ha];
        destruct (Ascii.eqb_spec b "-") as [->|Hb]; cbn [String.eqb].
      * rewrite IH. reflexivity.
      * rewrite toLower_lowerASCII.
        change (lowerASCII "-") with "-"%char.
        rewrite (Ascii.eqb_sym "-"), lowerASCII_dash.
        apply Ascii.eqb_neq in Hb. rewrite Hb. reflexivity.
      * rewrite toLower_lowerASCII.
        change (lowerASCII "-") with "-"%char.
        rewrite lowerASCII_dash.
        apply Ascii.eqb_neq in Ha. rewrite Ha. reflexivity.
      * rewrite !toLower_lowerASCII, IH. reflexivity.
Qed.

Lemma normalizeHeaderKey_eqb (k k' : string) :
  String.eqb (fasthttp.normalizeHeaderKey k) (fasthttp.normalizeHeaderKey k')
  = equalFoldASCII k k'.
Proof. apply normalizeFrom_eqb. Qed.

Lemma hasLineBreak_removeNewLines (v : string) :
  hasLineBreak v = false -> fasthttp.removeNewLines v = v.
Proof.
  induction v as [|c v IH]; [reflexivity|].
  cbn [hasLineBreak fasthttp.removeNewLines]. unfold fasthttp.isNewLine.
  destruct (Ascii.eqb c "010" || Ascii.eqb c "013"); [discriminate|].
  cbn [orb]. intros Hv. rewrite (IH Hv). reflexivity.
Qed.

(** *** [Peek] after [Set] *)

Ltac eqb_cases :=
  repeat match goal with
         | |- context [String.eqb ?a ?b] =>
             destruct (String.eqb_spec a b);
             try subst; try congruence; try discriminate
         end.

(** [peek] after [SetCanonical], for a key that is not Cookie,
    Content-Length or Transfer-Encoding: the value set, under the key
    set, and what was there under any other key. *)
Lemma peek_SetCanonical (k k' v : string) (rh : fasthttp.RequestHeader) :
  k <> "Cookie" -> k <> "Content-Length" -> k <> "Transfer-Encoding" ->
  fasthttp.peek k (fasthttp.SetCanonical k' v rh) =
  if String.eqb k k' then v else fasthttp.peek k rh.
Proof.
  intros HC HL HT.
  unfold fasthttp.SetCanonical.
  destruct (String.eqb_spec k' "Host") as [->|H1].
  { unfold fasthttp.peek. cbn. eqb_cases; reflexivity. }
  destruct (String.eqb_spec k' "Content-Type") as [->|H2].
  { unfold fasthttp.peek. cbn. eqb_cases; reflexivity. }
  destruct (String.eqb_spec k' "User-Agent") as [->|H3].
  { unfold fasthttp.peek. cbn. eqb_cases; reflexivity. }
  destruct (String.eqb_spec k' "Cookie") as [->|H4].
  { unfold fasthttp.peek, fasthttp.collectCookies.
    destruct (fasthttp.cookiesCollected rh); cbn;
      rewrite ?peekArg_delAllArgs; eqb_cases; reflexivity. }
  destruct (String.eqb_spec k' "Content-Length") as [->|H5].
  { unfold fasthttp.peek.
    destruct (fasthttp.parseContentLength v); cbn; eqb_cases; reflexivity. }
  destruct (String.eqb_spec k' "Connection") as [->|H6].
  { unfold fasthttp.peek, fasthttp.ResetConnectionClose.
    destruct (String.eqb_spec v "close") as [->|Hv];
      destruct (fasthttp.connectionClose rh) eqn:Hcc; cbn; rewrite ?Hcc;
      rewrite ?peekArg_setArg, ?peekArg_delAllArgs; eqb_cases;
      reflexivity. }
  destruct (String.eqb_spec k' "Transfer-Encoding") as [->|H7].
  { eqb_cases; reflexivity. }
  unfold fasthttp.peek. cbn. rewrite ?peekArg_setArg.
  eqb_cases; reflexivity.
Qed.

(** A name that fasthttp does not manage has none of the managed names
    as its normal form. *)
Lemma managedByFasthttp_false (k : string) :
  managedByFasthttp k = false ->
  fasthttp.normalizeHeaderKey k <> "Cookie"
  /\ fasthttp.normalizeHeaderKey k <> "Content-Length"
  /\ fasthttp.normalizeHeaderKey k <> "Transfer-Encoding".
Proof.
  unfold managedByFasthttp. intros Hm.
  apply orb_false_elim in Hm as [Hm _].
  apply orb_false_elim in Hm as [Hm HT].
  apply orb_false_elim in Hm as [HC HL].
  rewrite <- normalizeHeaderKey_eqb in HC, HL, HT.
  repeat split; intros Heq; rewrite Heq in *; discriminate.
Qed.

(** [Peek] after [Set], for a name that fasthttp does not manage: the
    value set (its line breaks made spaces), for a name that differs at
    most in the case of its letters, and what was there for any other
    name. *)
Lemma RequestHeader_Peek_Set (k k' v : string) (rh : fasthttp.RequestHeader) :
  managedByFasthttp k = false ->
  fasthttp.RequestHeader_Peek k (fasthttp.RequestHeader_Set k' v rh) =
  if equalFoldASCII k k' then fasthttp.removeNewLines v
  else fasthttp.RequestHeader_Peek k rh.
Proof.
  intros Hm. destruct (managedByFasthttp_false k Hm) as (HC & HL & HT).
  unfold fasthttp.RequestHeader_Peek, fasthttp.RequestHeader_Set.
  rewrite peek_SetCanonical by assumption.
  rewrite normalizeHeaderKey_eqb. reflexivity.
Qed.

Lemma fold_RequestHeader_Set_Peek (h : headersList) (k : string)
  (rh : fasthttp.RequestHeader) :
  managedByFasthttp k = false ->
  fasthttp.RequestHeader_Peek k
    (fold_left
       (fun res hd => fasthttp.RequestHeader_Set (key hd) (value hd) res)
       h rh) =
  default (fasthttp.RequestHeader_Peek k rh)
    (fasthttp.removeNewLines <$> lastValue (equalFoldASCII k) h).
Proof.
  intros Hm. induction h as [|hd h IH] using rev_ind.
  - reflexivity.
  - rewrite fold_left_app, lastValue_snoc. cbn [fold_left].
    rewrite RequestHeader_Peek_Set by exact Hm.
    destruct (equalFoldASCII k (key hd)); [reflexivity|exact IH].
Qed.

Lemma fold_insert_lookup (h : headersList) (k : string)
  (m : gmap string (list string)) :
  fold_left (fun headers hd => <[key hd := [value hd]]> headers) h m !! k =
  match lastValue (String.eqb k) h with
  | Some v => Some [v]
  | None => m !! k
  end.
Proof.
  induction h as [|hd h IH] using rev_ind.
  - reflexivity.
  - rewrite fold_left_app, lastValue_snoc. cbn [fold_left].
    destruct (String.eqb_spec k (key hd)) as [->|Hne].
    + apply lookup_insert_eq.
    + rewrite lookup_insert_ne by congruence. exact IH.
Qed.

Lemma headersToHTTPHeaders_lookup (h : headersList) (k : string) :
  headersToHTTPHeaders h !! k =
  (fun v => [v]) <$> lastValue (String.eqb k) h.
Proof.
  unfold headersToHTTPHeaders. destruct h as [|hd h]; [reflexivity|].
  cbn [length Nat.eqb]. rewrite fold_insert_lookup.
  destruct (lastValue (String.eqb k) (hd :: h)); reflexivity.
Qed.

Lemma peek_newRequestHeader (k : string) :
  fasthttp.peek k fasthttp.newRequestHeader = "".
Proof. unfold fasthttp.peek. cbn. eqb_cases; reflexivity. Qed.

Lemma headersToFastHTTPHeaders_Peek (h : headersList) (k : string) :
  managedByFasthttp k = false ->
  match headersToFastHTTPHeaders h with
  | None => h = []
  | Some res =>
      h <> []
      /\ fasthttp.RequestHeader_Peek k res =
         default ""
           (fasthttp.removeNewLines <$> lastValue (equalFoldASCII k) h)
  end.
Proof.
  intros Hm.
  unfold headersToFastHTTPHeaders. destruct h as [|hd h]; [reflexivity|].
  cbn [length Nat.eqb]. split; [discriminate|].
  rewrite fold_RequestHeader_Set_Peek by exact Hm.
  unfold fasthttp.RequestHeader_Peek at 1.
  rewrite peek_newRequestHeader. reflexivity.
Qed.

(** C9. The adapters write every header of the list to the container of
    the transport, in the order of the list and whether or not its key
    came before. In the map of Variant B the value under a key is the
    value of the last header of the list with this key, as it is written,
    and nothing is under a key that no header of the list has. The same
    holds in the header of Variant A, where names are compared without
    regard to the case of their letters, for every name that fasthttp
    does not manage itself (Cookie, Content-Length, Transfer-Encoding and
    Trailer are managed) when the last value has no line break in it. *)
Theorem header_adapters_last_write_wins (h : headersList) (k : string) :
  (forall hd,
      headersToHTTPHeaders (h ++ [hd])%list
      = <[key hd := [value hd]]> (headersToHTTPHeaders h))
  /\ (forall hd,
         headersToFastHTTPHeaders (h ++ [hd])%list
         = Some (fasthttp.RequestHeader_Set (key hd) (value hd)
                   (default fasthttp.newRequestHeader
                      (headersToFastHTTPHeaders h))))
  /\ headersToHTTPHeaders h !! k
     = (fun v => [v]) <$> lastValue (String.eqb k) h
  /\ (managedByFasthttp k = false ->
      hasLineBreak (default "" (lastValue (equalFoldASCII k) h)) = false ->
      match headersToFastHTTPHeaders h with
      | None => h = []
      | Some res =>
          h <> []
          /\ fasthttp.RequestHeader_Peek k res
             = default "" (lastValue (equalFoldASCII k) h)
      end).
Proof.
  repeat apply conj.
  - intros hd. unfold headersToHTTPHeaders.
    rewrite length_app, Nat.add_comm. cbn [length Nat.add Nat.eqb].
    rewrite fold_left_app. cbn [fold_left].
    destruct h; reflexivity.
  - intros hd. unfold headersToFastHTTPHeaders.
    rewrite length_app, Nat.add_comm. cbn [length Nat.add Nat.eqb].
    rewrite fold_left_app. cbn [fold_left].
    destruct h; reflexivity.
  - apply headersToHTTPHeaders_lookup.
  - intros Hm Hv.
    pose proof (headersToFastHTTPHeaders_Peek h k Hm) as HP.
    destruct (headersToFastHTTPHeaders h) as [res|]; [|exact HP].
    destruct HP as [Hne HP]. split; [exact Hne|]. rewrite HP.
    destruct (lastValue (equalFoldASCII k) h) as [v|]; [|reflexivity].
    cbn in Hv |- *. apply hasLineBreak_removeNewLines. exact Hv.
Qed.

Lemma header_adapters_last_write_wins_witness :
  let h := [mkHeader "X-Trace" "a"; mkHeader "Content-Type" "text/plain";
            mkHeader "x-trace" "b"] in
  managedByFasthttp "X-TRACE" = false
  /\ hasLineBreak (default "" (lastValue (equalFoldASCII "X-TRACE") h))
     = false
  /\ exists res,
      headersToFastHTTPHeaders h = Some res
      /\ fasthttp.RequestHeader_Peek "X-TRACE" res = "b".
Proof.
  intros h.
  assert (Hm : managedByFasthttp "X-TRACE" = false) by reflexivity.
  assert (Hv : hasLineBreak
                 (default "" (lastValue (equalFoldASCII "X-TRACE") h))
               = false) by reflexivity.
  split; [exact Hm|]. split; [exact Hv|].
  destruct (header_adapters_last_write_wins h "X-TRACE")
    as (_ & _ & _ & HA).
  specialize (HA Hm Hv).
  destruct (headersToFastHTTPHeaders h) as [res|]; [|discriminate HA].
  exists res. split; [reflexivity|]. exact (proj2 HA).
Defined.

(** C9, in the words of the spec, fails for Variant A. Of the two Cookie
    headers [a=1] and [b=2] the header of fasthttp holds both, as the one
    value [a=1; b=2], and not the last one; a Transfer-Encoding header is
    dropped, and so is a Content-Length header that is no number, which
    leaves the one before it in effect. *)
Lemma cookie_headers_add_up :
  let peek (h : headersList) (k : string) : option string :=
    fasthttp.RequestHeader_Peek k <$> headersToFastHTTPHeaders h in
  lastValue (equalFoldASCII "Cookie")
    [mkHeader "Cookie" "a=1"; mkHeader "Cookie" "b=2"] = Some "b=2"
  /\ peek [mkHeader "Cookie" "a=1"; mkHeader "Cookie" "b=2"] "Cookie"
     = Some "a=1; b=2"
  /\ peek [mkHeader "Transfer-Encoding" "gzip"] "Transfer-Encoding"
     = Some ""
  /\ peek [mkHeader "Content-Length" "10"; mkHeader "Content-Length" "ten"]
       "Content-Length" = Some "10"
  /\ ~ last_write_wins_claim.
Proof.
  intros peek.
  split; [reflexivity|]. split; [vm_compute; reflexivity|].
  split; [vm_compute; reflexivity|]. split; [vm_compute; reflexivity|].
  intros Hclaim.
  destruct (Hclaim [mkHeader "Cookie" "a=1"; mkHeader "Cookie" "b=2"]
              "Cookie") as [_ HA].
  vm_compute in HA. discriminate HA.
Qed.

(** ** The Host header *)

Lemma fast_submission_Header {E} (c : fasthttpClient.t E) (w : World E)
  req e0 :
  fasthttpClient.submission c w = Some (req, e0) ->
  fasthttp.host (fasthttp.Header req) =
  let t := match fasthttpClient.headers c with
           | Some hs => fasthttp.host hs
           | None => ""
           end in
  if String.eqb t "" then fasthttpClient.host c else t.
Proof.
  assert (Hprep :
    fasthttp.host (fasthttp.Header
                     (fasthttpClient.prepare c fasthttp.emptyRequest)) =
    let t := match fasthttpClient.headers c with
             | Some hs => fasthttp.host hs
             | None => ""
             end in
    if String.eqb t "" then fasthttpClient.host c else t).
  { unfold fasthttpClient.prepare, fasthttp.CopyTo.
    destruct (fasthttpClient.headers c) as [hs|];
      cbn [fasthttpClient.withHeader fasthttp.Header].
    - destruct (fasthttp.host hs) eqn:Hh;
        destruct (fasthttp.IsTLS (fasthttpClient.client c)); cbn;
        rewrite ?Hh; reflexivity.
    - destruct (fasthttp.IsTLS (fasthttpClient.client c)); reflexivity. }
  unfold fasthttpClient.submission.
  destruct (fasthttpClient.body c) as [b|].
  - intros [= <- _]. exact Hprep.
  - destruct (fasthttpClient.bodProd c) as [prod|]; [|discriminate].
    destruct (prod (env w)) as [[bs|bserr] e]; [|discriminate].
    intros [= <- _]. exact Hprep.
Qed.

Lemma std_submission_Host {E} (c : httpClient.t E) (w : World E) req e0 :
  httpClient.submission c w = Some (req, e0) ->
  nethttp.Host req = nethttp.Header_Get (httpClient.headers c) "Host".
Proof.
  assert (Hprep :
    nethttp.Host (httpClient.prepare c) =
    nethttp.Header_Get (httpClient.headers c) "Host").
  { unfold httpClient.prepare. cbn.
    destruct (String.eqb_spec
                (nethttp.Header_Get (httpClient.headers c) "Host") "")
      as [Heq|Hne]; cbn; [rewrite Heq|]; reflexivity. }
  unfold httpClient.submission.
  destruct (httpClient.body c) as [b|].
  - intros [= <- _]. exact Hprep.
  - destruct (httpClient.bodProd c) as [prod|]; [|discriminate].
    destruct (prod (env w)) as [[bs|bserr] e]; [|discriminate].
    intros [= <- _]. exact Hprep.
Qed.

(** C5. Variant B misses the override when the key of the Host header is
    not written "Host". On the header list [host: gw.test] (and the URL
    http://example.test/items): Variant A, whose header normalizes the
    key, submits its request with the host "gw.test"; in Variant B the
    header is in the map under "host", the lookup of "Host" in line 205
    finds nothing, and the request is submitted with an empty [Host], so
    that the host of the URL is used, with the header still in the map.
    On the list [Host: gw.test] Variant B does take the host of the
    header. *)
Theorem std_do_misses_host_header :
  let w := testWorld [reply 1500000 200 (NopCloser_NewReader "ok")] in
  let opts := withHeaders [mkHeader "host" "gw.test"] testOpts in
  let opts' := withHeaders [mkHeader "Host" "gw.test"] testOpts in
  exists fc sc sc' reqA reqB reqB',
    newFastHTTPClient opts = Ret (fastClient fc)
    /\ newHTTPClient opts = Ret (stdClient sc)
    /\ newHTTPClient opts' = Ret (stdClient sc')
    /\ fasthttpClient.submission fc w = Some (reqA, env w)
    /\ httpClient.submission sc w = Some (reqB, env w)
    /\ httpClient.submission sc' w = Some (reqB', env w)
    /\ fasthttp.host (fasthttp.Header reqA) = "gw.test"
    /\ nethttp.Header reqB !! "host" = Some ["gw.test"]
    /\ nethttp.Header_Get (nethttp.Header reqB) "Host" = ""
    /\ nethttp.Host reqB = ""
    /\ Host <$> nethttp.URL reqB = Some "example.test"
    /\ nethttp.Host reqB' = "gw.test".
Proof.
  intros w opts opts'. do 6 eexists.
  repeat (split; [reflexivity|]). reflexivity.
Qed.

(** ** The byte counters and the proxy *)

(** C6, as the code has it. When the URL of the client parses, both
    constructors return a client. The dial function of Variant A is the
    counting one for the empty proxy URL only: with a proxy URL it is a
    proxy dialer, and traffic on its connections leaves the counters as
    they are. The dial function of Variant B is the counting one on the
    two counters of the options, whatever the proxy URL. *)
Theorem counting_dial_use {E} `{Environment E}
  (opts : clientOpts.t E) (u : url_URL) :
  url_Parse (clientOpts.url opts) = inl u ->
  (exists c,
      newFastHTTPClient opts = Ret (fastClient c)
      /\ let dial := fasthttp.Dial (fasthttpClient.client c) in
         (clientOpts.proxyUrl opts = "" ->
          dial = countingDial (clientOpts.bytesRead opts)
                              (clientOpts.bytesWritten opts))
         /\ (clientOpts.proxyUrl opts <> "" ->
             is_counting dial = false
             /\ forall nread nwritten σ,
                 conn_transfer dial nread nwritten σ = σ))
  /\ (exists c,
         newHTTPClient opts = Ret (stdClient c)
         /\ nethttp.DialContext (nethttp.Transport_ (httpClient.client c))
            = Some (countingDial (clientOpts.bytesRead opts)
                                 (clientOpts.bytesWritten opts))).
Proof.
  intros Hu. split.
  - unfold newFastHTTPClient. rewrite Hu. eexists. split; [reflexivity|].
    cbn [fasthttpClient.client fasthttp.Dial]. split.
    + intros ->. reflexivity.
    + intros Hp. apply String.eqb_neq in Hp. rewrite Hp. cbn [negb].
      destruct (strings_Contains (clientOpts.proxyUrl opts) "socks5");
        split; reflexivity.
  - unfold newHTTPClient. rewrite Hu. eexists. split; [reflexivity|].
    cbn [httpClient.client nethttp.Transport_].
    destruct (clientOpts.HTTP2 opts); reflexivity.
Qed.

Lemma counting_dial_use_witness :
  let opts := withProxyUrl "socks5://gw.test:1080" testOpts in
  url_Parse (clientOpts.url opts) = inl testURL
  /\ clientOpts.proxyUrl opts <> ""
  /\ (exists c,
         newFastHTTPClient opts = Ret (fastClient c)
         /\ is_counting (fasthttp.Dial (fasthttpClient.client c)) = false
         /\ conn_transfer (fasthttp.Dial (fasthttpClient.client c)) 512 128 ∅
            = ∅)
  /\ (exists c,
         newHTTPClient opts = Ret (stdClient c)
         /\ nethttp.DialContext (nethttp.Transport_ (httpClient.client c))
            = Some (countingDial 1%positive 2%positive)).
Proof.
  intros opts.
  assert (Hu : url_Parse (clientOpts.url opts) = inl testURL)
    by reflexivity.
  assert (Hp : clientOpts.proxyUrl opts <> "") by discriminate.
  destruct (counting_dial_use opts testURL Hu)
    as [(c & Hc & _ & HA) (c' & Hc' & HB)].
  destruct (HA Hp) as [Hcount Hsame].
  split; [exact Hu|]. split; [exact Hp|]. split.
  - exists c. split; [exact Hc|]. split; [exact Hcount|]. apply Hsame.
  - exists c'. split; [exact Hc'|]. exact HB.
Defined.

(** C6, in the words of the spec, fails for Variant B: the client built with
    the proxy URL "http://proxy.test:3128" dials with the counting dial
    function, and 512 bytes read and 128 written on its connection are
    added to the two counters. *)
Lemma proxied_std_client_counts :
  let opts := withProxyUrl "http://proxy.test:3128" testOpts in
  (exists c,
      newHTTPClient opts = Ret c
      /\ client_dial c = Some (countingDial 1%positive 2%positive)
      /\ conn_transfer (countingDial 1%positive 2%positive) 512 128 ∅
         = {[ 1%positive := 512; 2%positive := 128 ]})
  /\ ~ proxied_uncounted_claim testEnv.
Proof.
  intros opts. split.
  - eexists. split; [reflexivity|]. split; [reflexivity|].
    vm_compute. reflexivity.
  - intros Hclaim.
    eassert (Hsc : newHTTPClient opts = Ret _) by reflexivity.
    destruct (Hclaim opts _ (countingDial 1%positive 2%positive) ltac:(discriminate)
                (or_intror Hsc) eq_refl) as [Hcount _].
    discriminate Hcount.
Qed.

(** ** The options on the transports *)

Lemma int_of_uint64_small (x : Z) :
  0 <= x < 2 ^ 63 -> int_of_uint64 x = x.
Proof.
  intros Hx. unfold int_of_uint64.
  rewrite Z.mod_small by lia.
  destruct (Z.ltb_spec x (2 ^ 63)); lia.
Qed.

(** [http2.ConfigureTransport] keeps the settings of a TLS configuration
    and every protocol that it offered. *)
Lemma http2_ConfigureTransport_tls (t1 : nethttp.Transport) (cfg : tls_Config) :
  nethttp.TLSClientConfig t1 = Some cfg ->
  exists cfg',
    nethttp.TLSClientConfig (nethttp.http2_ConfigureTransport t1) = Some cfg'
    /\ InsecureSkipVerify cfg' = InsecureSkipVerify cfg
    /\ ServerName cfg' = ServerName cfg
    /\ forall p, In p (NextProtos cfg) -> In p (NextProtos cfg').
Proof.
  intros Hcfg. unfold nethttp.http2_ConfigureTransport. rewrite Hcfg.
  cbn [default from_option id]. eexists. split; [reflexivity|].
  cbn [InsecureSkipVerify ServerName NextProtos]. repeat split.
  intros p Hp.
  set (np1 := if existsb (String.eqb "h2") (NextProtos cfg)
              then NextProtos cfg else "h2" :: NextProtos cfg).
  assert (H1 : In p np1).
  { subst np1. destruct (existsb _ (NextProtos cfg));
      [exact Hp | right; exact Hp]. }
  destruct (existsb (String.eqb "http/1.1") np1);
    [exact H1 | apply in_or_app; left; exact H1].
Qed.

Lemma http2_ConfigureTransport_protocols (t1 : nethttp.Transport) :
  let cfg := default nethttp.zeroTLSConfig (nethttp.TLSClientConfig t1) in
  exists cfg',
    nethttp.TLSClientConfig (nethttp.http2_ConfigureTransport t1) = Some cfg'
    /\ InsecureSkipVerify cfg' = InsecureSkipVerify cfg
    /\ ServerName cfg' = ServerName cfg
    /\ (forall p,
           In p (NextProtos cfg')
           <-> p = "h2" \/ p = "http/1.1" \/ In p (NextProtos cfg))
    /\ (NextProtos cfg = [] -> NextProtos cfg' = ["h2"; "http/1.1"]).
Proof.
  intros cfg. unfold nethttp.http2_ConfigureTransport. fold cfg.
  eexists. split; [reflexivity|].
  cbn [InsecureSkipVerify ServerName NextProtos].
  split; [reflexivity|]. split; [reflexivity|]. split.
  - intros p.
    set (np1 := if existsb (String.eqb "h2") (NextProtos cfg)
                then NextProtos cfg else "h2" :: NextProtos cfg).
    assert (H1 : In p np1 <-> p = "h2" \/ In p (NextProtos cfg)).
    { subst np1.
      destruct (existsb (String.eqb "h2") (NextProtos cfg)) eqn:Hex.
      - split; [intros Hp; right; exact Hp|].
        intros [->|Hp]; [|exact Hp].
        apply existsb_exists in Hex as (q & Hq & Heq).
        apply String.eqb_eq in Heq. subst q. exact Hq.
      - cbn [In]. split; (intros [Hp|Hp]; [left; congruence|right; exact Hp]). }
    destruct (existsb (String.eqb "http/1.1") np1) eqn:Hex.
    + rewrite H1. split; [intros [Hp|Hp]; auto|].
      intros [Hp|[->|Hp]]; auto.
      apply existsb_exists in Hex as (q & Hq & Heq).
      apply String.eqb_eq in Heq. subst q. apply H1. exact Hq.
    + rewrite in_app_iff, H1. cbn [In].
      split; [intros [[Hp|Hp]|[Hp|[]]]; auto|].
      intros [Hp|[Hp|Hp]]; auto.
  - intros Hnil. rewrite Hnil. reflexivity.
Qed.

(** C7, as the code has it. When the URL of the client parses, both
    constructors return a client. The host client of Variant A has the
    maximum of connections, the timeout (for reading and for writing) and
    the TLS configuration of the options, and is the same whatever
    [disableKeepAlives] is. In Variant B the transport has the maximum of
    connections (as the idle ones per host) and [disableKeepAlives] of
    the options, the client has their timeout, and the transport has
    their TLS configuration. Without HTTP/2 it has it as it is given, and
    no protocol is registered for an upgrade. With HTTP/2 it has a
    configuration with the settings of the one given (of a new one when
    none is given) whose protocols are "h2", "http/1.1" and the ones
    given, which are "h2" and "http/1.1" when none is given, and "h2" is
    the protocol registered. *)
Theorem options_on_transports {E} `{Environment E}
  (opts : clientOpts.t E) (u : url_URL) :
  url_Parse (clientOpts.url opts) = inl u ->
  (exists c,
      newFastHTTPClient opts = Ret (fastClient c)
      /\ let hc := fasthttpClient.client c in
         fasthttp.MaxConns hc = int_of_uint64 (clientOpts.maxConns opts)
         /\ (0 <= clientOpts.maxConns opts < 2 ^ 63 ->
             fasthttp.MaxConns hc = clientOpts.maxConns opts)
         /\ fasthttp.ReadTimeout hc = clientOpts.timeout opts
         /\ fasthttp.WriteTimeout hc = clientOpts.timeout opts
         /\ fasthttp.TLSConfig hc = clientOpts.tlsConfig opts
         /\ forall b,
             newFastHTTPClient (withDisableKeepAlives b opts)
             = Ret (fastClient c))
  /\ (exists c,
         newHTTPClient opts = Ret (stdClient c)
         /\ let tr := nethttp.Transport_ (httpClient.client c) in
            nethttp.MaxIdleConnsPerHost tr
            = int_of_uint64 (clientOpts.maxConns opts)
            /\ (0 <= clientOpts.maxConns opts < 2 ^ 63 ->
                nethttp.MaxIdleConnsPerHost tr = clientOpts.maxConns opts)
            /\ nethttp.Timeout (httpClient.client c) = clientOpts.timeout opts
            /\ nethttp.DisableKeepAlives tr = clientOpts.disableKeepAlives opts
            /\ (clientOpts.HTTP2 opts = false ->
                nethttp.TLSClientConfig tr = clientOpts.tlsConfig opts
                /\ nethttp.TLSNextProto tr = Some ∅)
            /\ (forall cfg,
                   clientOpts.tlsConfig opts = Some cfg ->
                   exists cfg',
                     nethttp.TLSClientConfig tr = Some cfg'
                     /\ InsecureSkipVerify cfg' = InsecureSkipVerify cfg
                     /\ ServerName cfg' = ServerName cfg
                     /\ forall p, In p (NextProtos cfg) ->
                                  In p (NextProtos cfg'))
            /\ (clientOpts.HTTP2 opts = true ->
                let cfg :=
                  default nethttp.zeroTLSConfig (clientOpts.tlsConfig opts) in
                exists cfg',
                  nethttp.TLSClientConfig tr = Some cfg'
                  /\ InsecureSkipVerify cfg' = InsecureSkipVerify cfg
                  /\ ServerName cfg' = ServerName cfg
                  /\ (forall p,
                         In p (NextProtos cfg')
                         <-> p = "h2" \/ p = "http/1.1"
                             \/ In p (NextProtos cfg))
                  /\ (clientOpts.tlsConfig opts = None ->
                      NextProtos cfg' = ["h2"; "http/1.1"])
                  /\ nethttp.TLSNextProto tr = Some {["h2"]})).
Proof.
  intros Hu. split.
  - unfold newFastHTTPClient at 1. rewrite Hu.
    eexists. split; [reflexivity|].
    cbn [fasthttpClient.client fasthttp.MaxConns fasthttp.ReadTimeout
           fasthttp.WriteTimeout fasthttp.TLSConfig].
    repeat apply conj; try reflexivity.
    + apply int_of_uint64_small.
    + intros b. unfold newFastHTTPClient, withDisableKeepAlives.
      cbn [clientOpts.url clientOpts.proxyUrl clientOpts.bytesRead
             clientOpts.bytesWritten clientOpts.maxConns clientOpts.timeout
             clientOpts.tlsConfig clientOpts.headers clientOpts.method
             clientOpts.body clientOpts.bodProd].
      rewrite Hu. reflexivity.
  - unfold newHTTPClient. rewrite Hu. eexists. split; [reflexivity|].
    cbn [httpClient.client nethttp.Transport_ nethttp.Timeout].
    split; [|split; [|split; [|split; [|split; [|split]]]]].
    + destruct (clientOpts.HTTP2 opts), (negb _); reflexivity.
    + intros Hm.
      transitivity (int_of_uint64 (clientOpts.maxConns opts));
        [|exact (int_of_uint64_small _ Hm)].
      destruct (clientOpts.HTTP2 opts), (negb _); reflexivity.
    + reflexivity.
    + destruct (clientOpts.HTTP2 opts), (negb _); reflexivity.
    + intros ->. destruct (negb _); split; reflexivity.
    + intros cfg Hcfg. destruct (clientOpts.HTTP2 opts).
      * apply http2_ConfigureTransport_tls.
        destruct (negb _); exact Hcfg.
      * exists cfg. split; [destruct (negb _); exact Hcfg|].
        repeat split. intros p Hp. exact Hp.
    + intros ->.
      set (cfg := default nethttp.zeroTLSConfig (clientOpts.tlsConfig opts)).
      match goal with
      | |- context [nethttp.http2_ConfigureTransport ?t] =>
          destruct (http2_ConfigureTransport_protocols t)
            as (cfg' & Hcfg' & Hisv & Hsn & Hnp & Hnil);
          assert (Ht : nethttp.TLSClientConfig t = clientOpts.tlsConfig opts)
            by (destruct (negb _); reflexivity);
          assert (Hnp0 : nethttp.TLSNextProto
                           (nethttp.http2_ConfigureTransport t)
                         = Some {["h2"]})
            by (unfold nethttp.http2_ConfigureTransport;
                cbn [nethttp.TLSNextProto];
                destruct (negb _); cbn [nethttp.TLSNextProto default
                                          from_option id];
                f_equal; apply (right_id_L ∅ (∪)))
      end.
      rewrite Ht in Hisv, Hsn, Hnp, Hnil. fold cfg in Hisv, Hsn, Hnp, Hnil.
      exists cfg'. split; [exact Hcfg'|]. split; [exact Hisv|].
      split; [exact Hsn|]. split; [exact Hnp|]. split; [|exact Hnp0].
      intros Hnone. apply Hnil. subst cfg. rewrite Hnone. reflexivity.
Qed.

Lemma options_on_transports_witness :
  let u := {| Scheme := "https"; Host := "example.test";
              RequestURI := "/" |} in
  url_Parse (clientOpts.url secureOpts) = inl u
  /\ 0 <= clientOpts.maxConns secureOpts < 2 ^ 63
  /\ clientOpts.HTTP2 secureOpts = true
  /\ (exists c,
         newFastHTTPClient secureOpts = Ret (fastClient c)
         /\ fasthttp.MaxConns (fasthttpClient.client c) = 64
         /\ fasthttp.ReadTimeout (fasthttpClient.client c) = 5000000000
         /\ fasthttp.WriteTimeout (fasthttpClient.client c) = 5000000000
         /\ fasthttp.TLSConfig (fasthttpClient.client c)
            = clientOpts.tlsConfig secureOpts)
  /\ (exists c,
         newHTTPClient secureOpts = Ret (stdClient c)
         /\ nethttp.MaxIdleConnsPerHost
              (nethttp.Transport_ (httpClient.client c)) = 64
         /\ nethttp.Timeout (httpClient.client c) = 5000000000
         /\ nethttp.DisableKeepAlives
              (nethttp.Transport_ (httpClient.client c)) = true
         /\ exists cfg',
             nethttp.TLSClientConfig
               (nethttp.Transport_ (httpClient.client c)) = Some cfg'
             /\ InsecureSkipVerify cfg' = true
             /\ ServerName cfg' = "example.test"
             /\ In "h2" (NextProtos cfg')
             /\ In "http/1.1" (NextProtos cfg')).
Proof.
  intros u.
  assert (Hu : url_Parse (clientOpts.url secureOpts) = inl u)
    by reflexivity.
  assert (Hm : 0 <= clientOpts.maxConns secureOpts < 2 ^ 63)
    by (cbn; lia).
  assert (H2 : clientOpts.HTTP2 secureOpts = true) by reflexivity.
  destruct (options_on_transports secureOpts u Hu)
    as [(c & Hc & _ & HmA & HrA & HwA & HtA & _)
        (c' & Hc' & _ & HmB & HtB & HkB & _ & _ & HtlsB)].
  split; [exact Hu|]. split; [exact Hm|]. split; [exact H2|]. split.
  - exists c. split; [exact Hc|]. split; [exact (HmA Hm)|].
    split; [exact HrA|]. split; [exact HwA|]. exact HtA.
  - exists c'. split; [exact Hc'|]. split; [exact (HmB Hm)|].
    split; [exact HtB|]. split; [exact HkB|].
    destruct (HtlsB H2) as (cfg' & Hcfg' & Hisv & Hsn & Hnp & _ & _).
    exists cfg'. split; [exact Hcfg'|]. split; [exact Hisv|].
    split; [exact Hsn|].
    split; apply Hnp; [left|right; left]; reflexivity.
Defined.

(** C7, in the words of the spec, fails for Variant A: [disableKeepAlives]
    has no effect on what [newFastHTTPClient] builds, the client built
    with the option set is the client built without it. *)
Lemma fast_client_ignores_disableKeepAlives :
  newFastHTTPClient (withDisableKeepAlives true testOpts)
  = newFastHTTPClient (withDisableKeepAlives false testOpts)
  /\ ~ keepAlives_claim testEnv.
Proof.
  split; [reflexivity|].
  intros Hclaim.
  eassert (Hc : newFastHTTPClient (withDisableKeepAlives true testOpts)
                = Ret _) by reflexivity.
  exact (Hclaim newFastHTTPClient (or_introl eq_refl) testOpts _ _ Hc Hc
           eq_refl).
Qed.

(** ** The body of the response in Variant B *)

(** What [do] of Variant B returns and logs when the transport answers
    its submission with a response. *)
Lemma std_do_answered {E} `{Environment E} (c : httpClient.t E)
  (w : World E) req e0 resp e1 :
  httpClient.submission c w = Some (req, e0) ->
  Client_Do (httpClient.client c) req e0 = (inl resp, e1) ->
  httpClient.do c w =
  (Ret (nethttp.StatusCode resp, elapsedMicros e0 e1,
        match rc_closeErr (nethttp.RespBody resp) with
        | Some cerr => Some cerr
        | None => rc_readErr (nethttp.RespBody resp)
        end),
   {| env := e1; pool := pool w;
      log := (log w ++
              [evClientDo req;
               evBodyRead (Z.of_nat (String.length
                                       (rc_pending (nethttp.RespBody resp))));
               evBodyClose ""])%list |}).
Proof.
  intros Hs HDo. rewrite (std_do_submits _ _ _ _ Hs).
  rewrite (std_fire_eq _ _ _ (inl resp) e1) by exact HDo.
  cbn [env pool log]. rewrite <- !app_assoc. reflexivity.
Qed.

(** C8. When the transport answers the submission of [do] in Variant B
    with a response, [do] reads the body of the response to its end,
    discarding it, and then closes it, with nothing left to read, before
    it returns; the code returned is the status of the response in every
    case; the error returned is the error of the closing if the closing
    fails, the error of the reading if the reading fails and the closing
    does not, and [nil] if neither fails. *)
Theorem std_do_drains_and_closes {E} `{Environment E}
  (c : httpClient.t E) (w : World E) req e0 resp e1 :
  httpClient.submission c w = Some (req, e0) ->
  Client_Do (httpClient.client c) req e0 = (inl resp, e1) ->
  let b := nethttp.RespBody resp in
  exists err,
    fst (httpClient.do c w)
    = Ret (nethttp.StatusCode resp, elapsedMicros e0 e1, err)
    /\ log (snd (httpClient.do c w))
       = (log w ++
          [evClientDo req;
           evBodyRead (Z.of_nat (String.length (rc_pending b)));
           evBodyClose ""])%list
    /\ (forall cerr, rc_closeErr b = Some cerr -> err = Some cerr)
    /\ (forall berr,
           rc_readErr b = Some berr -> rc_closeErr b = None ->
           err = Some berr)
    /\ (rc_readErr b = None -> rc_closeErr b = None -> err = None).
Proof.
  intros Hs HDo b. rewrite (std_do_answered _ _ _ _ _ _ Hs HDo).
  eexists. split; [reflexivity|]. split; [reflexivity|]. fold b.
  repeat apply conj.
  - intros cerr ->. reflexivity.
  - intros berr Hr ->. exact Hr.
  - intros Hr ->. exact Hr.
Qed.

Lemma std_do_drains_and_closes_witness :
  let body :=
    {| rc_pending := "partial";
       rc_readErr := Some (errorString "unexpected EOF");
       rc_closeErr := None |} in
  let w := testWorld [reply 1500000 503 body] in
  exists c req,
    newHTTPClient testOpts = Ret (stdClient c)
    /\ httpClient.submission c w = Some (req, env w)
    /\ Client_Do (httpClient.client c) req (env w)
       = (inl {| nethttp.StatusCode := 503; nethttp.RespBody := body |},
          {| clock := 1501000; script := [] |})
    /\ fst (httpClient.do c w)
       = Ret (503, 1500, Some (errorString "unexpected EOF"))
    /\ log (snd (httpClient.do c w))
       = [evClientDo req; evBodyRead 7; evBodyClose ""].
Proof.
  intros body w. eexists. eexists. split; [reflexivity|].
  match goal with
  | |- httpClient.submission ?c _ = Some (?r, _) /\ _ =>
      assert (Hs : httpClient.submission c w = Some (r, env w))
        by reflexivity;
      assert (HDo : Client_Do (httpClient.client c) r (env w)
                    = (inl {| nethttp.StatusCode := 503;
                              nethttp.RespBody := body |},
                       {| clock := 1501000; script := [] |}))
        by reflexivity;
      destruct (std_do_drains_and_closes c w r (env w) _ _ Hs HDo)
        as (err & Hres & Hlog & _ & Hread & _)
  end.
  split; [exact Hs|]. split; [exact HDo|].
  rewrite (Hread _ eq_refl eq_refl) in Hres.
  split; [exact Hres|exact Hlog].
Defined.

(** C10. When the transport answers the submission of [do] in Variant B
    with a response whose body fails to be read and fails to be closed,
    the error that [do] returns is the error of the closing; the error of
    the reading is lost. *)
Theorem std_do_close_error_wins {E} `{Environment E}
  (c : httpClient.t E) (w : World E) req e0 resp e1 (berr cerr : error) :
  httpClient.submission c w = Some (req, e0) ->
  Client_Do (httpClient.client c) req e0 = (inl resp, e1) ->
  rc_readErr (nethttp.RespBody resp) = Some berr ->
  rc_closeErr (nethttp.RespBody resp) = Some cerr ->
  fst (httpClient.do c w)
  = Ret (nethttp.StatusCode resp, elapsedMicros e0 e1, Some cerr).
Proof.
  intros Hs HDo _ Hc. rewrite (std_do_answered _ _ _ _ _ _ Hs HDo).
  cbn [fst]. rewrite Hc. reflexivity.
Qed.

Lemma std_do_close_error_wins_witness :
  let w := testWorld [reply 1500000 200 brokenBody] in
  exists c req,
    newHTTPClient testOpts = Ret (stdClient c)
    /\ httpClient.submission c w = Some (req, env w)
    /\ Client_Do (httpClient.client c) req (env w)
       = (inl {| nethttp.StatusCode := 200; nethttp.RespBody := brokenBody |},
          {| clock := 1501000; script := [] |})
    /\ rc_readErr brokenBody = Some (errorString "unexpected EOF")
    /\ rc_closeErr brokenBody
       = Some (errorString "use of closed network connection")
    /\ fst (httpClient.do c w)
       = Ret (200, 1500,
              Some (errorString "use of closed network connection")).
Proof.
  intros w. eexists. eexists. split; [reflexivity|].
  match goal with
  | |- httpClient.submission ?c _ = Some (?r, _) /\ _ =>
      assert (Hs : httpClient.submission c w = Some (r, env w))
        by reflexivity;
      assert (HDo : Client_Do (httpClient.client c) r (env w)
                    = (inl {| nethttp.StatusCode := 200;
                              nethttp.RespBody := brokenBody |},
                       {| clock := 1501000; script := [] |}))
        by reflexivity;
      pose proof (std_do_close_error_wins c w r (env w) _ _
                    (errorString "unexpected EOF")
                    (errorString "use of closed network connection")
                    Hs HDo eq_refl eq_refl) as Hres
  end.
  split; [exact Hs|]. split; [exact HDo|].
  split; [reflexivity|]. split; [reflexivity|]. exact Hres.
Defined.

(** ** The log and the submission *)

(** [do] logs the request of its submission, and no other request. *)
Lemma fast_do_log {E} `{Environment E} (c : fasthttpClient.t E)
  (w : World E) :
  log (snd (fasthttpClient.do c w)) =
  (log w ++ match fasthttpClient.submission c w with
            | Some (req, _) => [evHostClientDo req]
            | None => []
            end)%list.
Proof.
  destruct (fasthttpClient.submission c w) as [[req e0]|] eqn:Hs.
  - rewrite (fast_do_submits _ _ _ _ Hs).
    destruct (HostClient_Do (fasthttpClient.client c) req e0) as [r e1]
      eqn:HDo.
    rewrite (fast_fire_eq _ _ _ _ r e1) by exact HDo. reflexivity.
  - rewrite app_nil_r. revert Hs.
    unfold fasthttpClient.submission, fasthttpClient.do.
    cbn [fasthttp.AcquireRequest fasthttp.AcquireResponse].
    destruct (fasthttpClient.body c); [discriminate|].
    destruct (fasthttpClient.bodProd c) as [prod|]; [|reflexivity].
    cbn [env setPool].
    destruct (prod (env w)) as [[bs|bserr] e]; [discriminate|reflexivity].
Qed.

Lemma std_do_log {E} `{Environment E} (c : httpClient.t E) (w : World E) :
  filter (fun ev => is_submission ev) (log (snd (httpClient.do c w))) =
  (filter (fun ev => is_submission ev) (log w)
   ++ match httpClient.submission c w with
      | Some (req, _) => [evClientDo req]
      | None => []
      end)%list.
Proof.
  destruct (httpClient.submission c w) as [[req e0]|] eqn:Hs.
  - rewrite (std_do_submits _ _ _ _ Hs).
    destruct (Client_Do (httpClient.client c) req e0) as [r e1] eqn:HDo.
    rewrite (std_fire_eq _ _ _ r e1) by exact HDo.
    destruct r as [resp|terr]; cbn [snd log];
      rewrite ?filter_app; cbn; rewrite ?app_nil_r; reflexivity.
  - rewrite app_nil_r. revert Hs.
    unfold httpClient.submission, httpClient.do.
    destruct (httpClient.body c); [discriminate|].
    destruct (httpClient.bodProd c) as [prod|]; [|reflexivity].
    destruct (prod (env w)) as [[bs|bserr] e]; [discriminate|reflexivity].
Qed.

(** ** The scenarios of the spec *)

Example scenario_fast :
  fst (construct_and_do newFastHTTPClient testOpts
         (testWorld [reply 1500000 201 (NopCloser_NewReader "ok")]))
  = Ret (201, 1500, None).
Proof. vm_compute. reflexivity. Qed.

Example scenario_std :
  fst (construct_and_do newHTTPClient testOpts
         (testWorld [reply 1500000 201 (NopCloser_NewReader "ok")]))
  = Ret (201, 1500, None).
Proof. vm_compute. reflexivity. Qed.

Example scenario_unreachable_proxy :
  fst (construct_and_do newHTTPClient
         (withProxyUrl "http://proxy.test:3128" testOpts)
         (testWorld [refuse 30000000
                       (errorString "proxyconnect tcp: i/o timeout")]))
  = Ret (-1, 30000, Some (errorString "proxyconnect tcp: i/o timeout")).
Proof. vm_compute. reflexivity. Qed.

Example scenario_streamed_body :
  construct_and_do newFastHTTPClient
    (withBodProd (streamProducer "payload") testOpts)
    (testWorld [reply 900000 204 (NopCloser_NewReader "")])
  = (Ret (204, 900, None),
     {| env := {| clock := 901000; script := [] |};
        pool := {| fasthttp.requestsOut := 0; fasthttp.responsesOut := 0 |};
        log :=
          [evHostClientDo
             {| fasthttp.Header :=
                  {| fasthttp.connectionClose := false;
                     fasthttp.contentLength := -1;
                     fasthttp.contentLengthBytes := "";
                     fasthttp.method := "POST";
                     fasthttp.host := "example.test";
                     fasthttp.contentType := "application/json";
                     fasthttp.userAgent := "";
                     fasthttp.h := [("Transfer-Encoding", "chunked")];
                     fasthttp.cookies := [];
                     fasthttp.cookiesCollected := false |};
                fasthttp.uriScheme := "http";
                fasthttp.requestURI := "/items";
                fasthttp.body :=
                  fasthttp.bodyStream (NopCloser_NewReader "payload") (-1)
             |}] |}).
Proof. vm_compute. reflexivity. Qed.

Example scenario_bad_url :
  construct_and_do newHTTPClient
    {| clientOpts.HTTP2 := false; clientOpts.maxConns := 1;
       clientOpts.timeout := 1; clientOpts.tlsConfig := None;
       clientOpts.disableKeepAlives := false; clientOpts.headers := [];
       clientOpts.url := "://example.test"; clientOpts.method := "GET";
       clientOpts.proxyUrl := ""; clientOpts.body := Some "";
       clientOpts.bodProd := None; clientOpts.bytesRead := 1%positive;
       clientOpts.bytesWritten := 2%positive |}
    (testWorld [])
  = (Panic "parse: missing protocol scheme", testWorld []).
Proof. reflexivity. Qed.

(** * Further properties of [clients.go] *)

(** ** Construction *)

(** X1. For options with a header list, as the options of this model
    are (their pointer [headers] is not [nil]): both constructors return
    a client when the URL of the options parses, and panic with the error
    of the parser when it does not. The client of Variant A keeps the
    host and the request URI of the URL, the client of Variant B the URL
    itself. *)
Theorem constructors_panic_on_bad_url {E} `{Environment E}
  (opts : clientOpts.t E) :
  match url_Parse (clientOpts.url opts) with
  | inl u =>
      (exists c,
          newFastHTTPClient opts = Ret (fastClient c)
          /\ fasthttpClient.host c = Host u
          /\ fasthttpClient.requestURI c = RequestURI u
          /\ fasthttp.Addr (fasthttpClient.client c) = Host u)
      /\ (exists c,
             newHTTPClient opts = Ret (stdClient c)
             /\ httpClient.url c = Some u)
  | inr err =>
      newFastHTTPClient opts = Panic (Error err)
      /\ newHTTPClient opts = Panic (Error err)
  end.
Proof.
  unfold newFastHTTPClient, newHTTPClient.
  destruct (url_Parse (clientOpts.url opts)) as [u|err].
  - split; eexists; repeat split.
  - split; reflexivity.
Qed.

(** X2. The proxy of Variant B: the transport has no proxy function for
    the empty proxy URL, and for any other proxy URL the function that
    answers what the URL parses to. A proxy URL that does not parse does
    not fail the construction: its error is dropped, and the proxy
    function answers [nil]. *)
Theorem std_proxy_of_options {E} `{Environment E}
  (opts : clientOpts.t E) (u : url_URL) :
  url_Parse (clientOpts.url opts) = inl u ->
  exists c,
    newHTTPClient opts = Ret (stdClient c)
    /\ let proxy := nethttp.Proxy (nethttp.Transport_ (httpClient.client c)) in
       (clientOpts.proxyUrl opts = "" -> proxy = None)
       /\ (forall pu,
              clientOpts.proxyUrl opts <> "" ->
              URL_Parse (clientOpts.proxyUrl opts) = inl pu ->
              proxy = Some (nethttp.ProxyURL (Some pu)))
       /\ (forall perr,
              clientOpts.proxyUrl opts <> "" ->
              URL_Parse (clientOpts.proxyUrl opts) = inr perr ->
              proxy = Some (nethttp.ProxyURL None)).
Proof.
  intros Hu. unfold newHTTPClient. rewrite Hu.
  eexists. split; [reflexivity|].
  cbn [httpClient.client nethttp.Transport_].
  repeat apply conj.
  - intros ->. destruct (clientOpts.HTTP2 opts); reflexivity.
  - intros pu Hp Hpu. apply String.eqb_neq in Hp. rewrite Hp, Hpu.
    destruct (clientOpts.HTTP2 opts); reflexivity.
  - intros perr Hp Hpu. apply String.eqb_neq in Hp. rewrite Hp, Hpu.
    destruct (clientOpts.HTTP2 opts); reflexivity.
Qed.

Lemma std_proxy_of_options_witness :
  let opts := withProxyUrl "://proxy.test:3128" testOpts in
  url_Parse (clientOpts.url opts) = inl testURL
  /\ clientOpts.proxyUrl opts <> ""
  /\ URL_Parse (clientOpts.proxyUrl opts)
     = inr (errorString "parse: missing protocol scheme")
  /\ exists c,
      newHTTPClient opts = Ret (stdClient c)
      /\ nethttp.Proxy (nethttp.Transport_ (httpClient.client c))
         = Some (nethttp.ProxyURL None).
Proof.
  intros opts.
  assert (Hu : url_Parse (clientOpts.url opts) = inl testURL)
    by reflexivity.
  assert (Hp : clientOpts.proxyUrl opts <> "") by discriminate.
  assert (Hpu : URL_Parse (clientOpts.proxyUrl opts)
                = inr (errorString "parse: missing protocol scheme"))
    by reflexivity.
  destruct (std_proxy_of_options opts testURL Hu) as (c & Hc & _ & _ & Hnil).
  split; [exact Hu|]. split; [exact Hp|]. split; [exact Hpu|].
  exists c. split; [exact Hc|]. exact (Hnil _ Hp Hpu).
Defined.

(** X3. [int(opts.maxConns)] wraps: the maximum of connections of either
    transport is always an [int] of 64 bits, and an option of 2^63 or
    more gives a negative maximum, the option less 2^64. *)
Theorem maxConns_wraps {E} `{Environment E}
  (opts : clientOpts.t E) (u : url_URL) :
  url_Parse (clientOpts.url opts) = inl u ->
  exists fc sc,
    newFastHTTPClient opts = Ret (fastClient fc)
    /\ newHTTPClient opts = Ret (stdClient sc)
    /\ fasthttp.MaxConns (fasthttpClient.client fc)
       = nethttp.MaxIdleConnsPerHost (nethttp.Transport_ (httpClient.client sc))
    /\ - 2 ^ 63 <= fasthttp.MaxConns (fasthttpClient.client fc) < 2 ^ 63
    /\ (2 ^ 63 <= clientOpts.maxConns opts < 2 ^ 64 ->
        fasthttp.MaxConns (fasthttpClient.client fc)
        = clientOpts.maxConns opts - 2 ^ 64
        /\ fasthttp.MaxConns (fasthttpClient.client fc) < 0).
Proof.
  intros Hu. unfold newFastHTTPClient, newHTTPClient. rewrite Hu.
  do 2 eexists. split; [reflexivity|]. split; [reflexivity|].
  cbn [fasthttpClient.client fasthttp.MaxConns httpClient.client
         nethttp.Transport_].
  split; [|split].
  - destruct (clientOpts.HTTP2 opts), (negb _); reflexivity.
  - unfold int_of_uint64.
    pose proof (Z.mod_pos_bound (clientOpts.maxConns opts) (2 ^ 64)
                  ltac:(lia)) as Hm.
    destruct (Z.ltb_spec (clientOpts.maxConns opts mod 2 ^ 64) (2 ^ 63));
      lia.
  - intros Hm. unfold int_of_uint64. rewrite Z.mod_small by lia.
    destruct (Z.ltb_spec (clientOpts.maxConns opts) (2 ^ 63)); lia.
Qed.

Lemma maxConns_wraps_witness :
  let opts := withMaxConns (2 ^ 64 - 1) testOpts in
  url_Parse (clientOpts.url opts) = inl testURL
  /\ 2 ^ 63 <= clientOpts.maxConns opts < 2 ^ 64
  /\ exists fc sc,
      newFastHTTPClient opts = Ret (fastClient fc)
      /\ newHTTPClient opts = Ret (stdClient sc)
      /\ fasthttp.MaxConns (fasthttpClient.client fc) = -1
      /\ nethttp.MaxIdleConnsPerHost
           (nethttp.Transport_ (httpClient.client sc)) = -1.
Proof.
  intros opts.
  assert (Hu : url_Parse (clientOpts.url opts) = inl testURL)
    by reflexivity.
  assert (Hm : 2 ^ 63 <= clientOpts.maxConns opts < 2 ^ 64)
    by (cbn; lia).
  destruct (maxConns_wraps opts testURL Hu)
    as (fc & sc & Hfc & Hsc & Heq & _ & Hwrap).
  destruct (Hwrap Hm) as [Hval _].
  split; [exact Hu|]. split; [exact Hm|].
  exists fc, sc. split; [exact Hfc|]. split; [exact Hsc|].
  split; [exact Hval|]. rewrite <- Heq. exact Hval.
Defined.

(** ** The calls of [do] *)

Lemma fast_do_no_submission {E} `{Environment E} (c : fasthttpClient.t E)
  (w : World E) :
  fasthttpClient.submission c w = None ->
  fasthttpClient.do c w =
  match fasthttpClient.bodProd c with
  | None =>
      (Panic "invalid memory address or nil pointer dereference",
       setPool (acquired (pool w)) w)
  | Some prod =>
      match prod (env w) with
      | (inr bserr, e) =>
          (Ret (0, 0, Some bserr),
           {| env := e; pool := acquired (pool w); log := log w |})
      | (inl _, _) => fasthttpClient.do c w
      end
  end.
Proof.
  unfold fasthttpClient.submission, fasthttpClient.do.
  cbn [fasthttp.AcquireRequest fasthttp.AcquireResponse].
  destruct (fasthttpClient.body c); [discriminate|].
  destruct (fasthttpClient.bodProd c) as [prod|]; [|reflexivity].
  cbn [env setPool].
  destruct (prod (env w)) as [[bs|bserr] e]; [discriminate|reflexivity].
Qed.

Lemma std_do_no_submission {E} `{Environment E} (c : httpClient.t E)
  (w : World E) :
  httpClient.submission c w = None ->
  httpClient.do c w =
  match httpClient.bodProd c with
  | None => (Panic "invalid memory address or nil pointer dereference", w)
  | Some prod =>
      match prod (env w) with
      | (inr bserr, e) => (Ret (0, 0, Some bserr), setEnv e w)
      | (inl _, _) => httpClient.do c w
      end
  end.
Proof.
  unfold httpClient.submission, httpClient.do.
  destruct (httpClient.body c); [discriminate|].
  destruct (httpClient.bodProd c) as [prod|]; [|reflexivity].
  destruct (prod (env w)) as [[bs|bserr] e]; [discriminate|reflexivity].
Qed.

(** What [do] returns when it gets to submit: some code, the time of
    the submission, some error. *)
Lemma client_do_submitted {E} `{Environment E} (c : client E) (w : World E)
  e0 a e1 :
  client_submit c w = Some (e0, a, e1) ->
  exists code err,
    fst (client_do c w) = Ret (code, elapsedMicros e0 e1, err).
Proof.
  intros Hsub. destruct c as [fc|sc]; unfold client_submit in Hsub;
    unfold client_do.
  - destruct (fasthttpClient.submission fc w) as [[req e]|] eqn:Hs;
      [|discriminate].
    destruct (HostClient_Do (fasthttpClient.client fc) req e) as [r e']
      eqn:HDo.
    injection Hsub as <- _ <-.
    rewrite (fast_do_submits _ _ _ _ Hs).
    rewrite (fast_fire_eq _ _ _ _ r e') by exact HDo.
    do 2 eexists. reflexivity.
  - destruct (httpClient.submission sc w) as [[req e]|] eqn:Hs;
      [|discriminate].
    destruct (Client_Do (httpClient.client sc) req e) as [r e'] eqn:HDo.
    injection Hsub as <- _ <-.
    rewrite (std_do_submits _ _ _ _ Hs).
    rewrite (std_fire_eq _ _ _ r e') by exact HDo.
    destruct r; do 2 eexists; reflexivity.
Qed.

Lemma client_submit_None {E} `{Environment E} (c : client E) (w : World E) :
  client_submit c w = None <->
  match c with
  | fastClient fc => fasthttpClient.submission fc w = None
  | stdClient sc => httpClient.submission sc w = None
  end.
Proof.
  destruct c as [fc|sc]; unfold client_submit.
  - destruct (fasthttpClient.submission fc w) as [[req e]|];
      [|tauto].
    destruct (HostClient_Do _ req e). split; discriminate.
  - destruct (httpClient.submission sc w) as [[req e]|]; [|tauto].
    destruct (Client_Do _ req e). split; discriminate.
Qed.

(** X4. [do] panics in one case only, on a client of either variant:
    when the client has neither a fixed body nor a body producer, where
    the call of the [nil] producer panics. It then has submitted
    nothing. In every other case [do] returns its three results. *)
Theorem do_panics_without_body_source {E} `{Environment E}
  (c : client E) (w : World E) :
  ((exists msg, fst (client_do c w) = Panic msg) <->
   client_body c = None /\ client_bodProd c = None)
  /\ ((exists res, fst (client_do c w) = Ret res) <->
      ~ (client_body c = None /\ client_bodProd c = None))
  /\ (client_body c = None -> client_bodProd c = None ->
      client_submit c w = None /\ log (snd (client_do c w)) = log w).
Proof.
  assert (Hcases :
    (client_body c = None /\ client_bodProd c = None
     /\ (exists msg, fst (client_do c w) = Panic msg)
     /\ client_submit c w = None /\ log (snd (client_do c w)) = log w)
    \/ (~ (client_body c = None /\ client_bodProd c = None)
        /\ exists res, fst (client_do c w) = Ret res)).
  { destruct (client_submit c w) as [[[e0 a] e1]|] eqn:Hsub.
    - right. destruct (client_do_submitted _ _ _ _ _ Hsub) as (code & err & Hr).
      split; [|eexists; exact Hr].
      intros [Hb Hp]. revert Hsub.
      destruct c as [fc|sc]; cbn in Hb, Hp; unfold client_submit,
        fasthttpClient.submission, httpClient.submission;
        rewrite Hb, Hp; discriminate.
    - pose proof (proj1 (client_submit_None c w) Hsub) as Hs.
      destruct c as [fc|sc]; cbn [client_body client_bodProd client_do].
      + rewrite (fast_do_no_submission _ _ Hs).
        revert Hs. unfold fasthttpClient.submission.
        destruct (fasthttpClient.body fc); [discriminate|].
        destruct (fasthttpClient.bodProd fc) as [prod|].
        * destruct (prod (env w)) as [[bs|bserr] e]; [discriminate|].
          intros _. right. split; [intros [_ [=]]|eexists; reflexivity].
        * intros _. left. repeat split. eexists; reflexivity.
      + rewrite (std_do_no_submission _ _ Hs).
        revert Hs. unfold httpClient.submission.
        destruct (httpClient.body sc); [discriminate|].
        destruct (httpClient.bodProd sc) as [prod|].
        * destruct (prod (env w)) as [[bs|bserr] e]; [discriminate|].
          intros _. right. split; [intros [_ [=]]|eexists; reflexivity].
        * intros _. left. repeat split. eexists; reflexivity. }
  destruct Hcases as [(Hb & Hp & [msg Hpanic] & Hsub & Hlog) | [Hn [res Hres]]].
  - split; [|split].
    + split; [intros _; split; assumption | intros _; eexists; exact Hpanic].
    + split; [intros [res Hres]; rewrite Hpanic in Hres; discriminate
             | intros Hn; destruct Hn; split; assumption].
    + intros _ _. split; assumption.
  - split; [|split].
    + split; [intros [msg Hpanic]; rewrite Hres in Hpanic; discriminate
             | intros Hbp; destruct (Hn Hbp)].
    + split; [intros _; exact Hn | intros _; eexists; exact Hres].
    + intros Hb Hp. destruct (Hn (conj Hb Hp)).
Qed.

(** X5. A call of [do] submits at most one request, on a client of
    either variant: the log gains exactly one submission when [do] gets
    to the transport, whatever the transport answers (a failed
    submission is not tried again), and none when it does not. *)
Theorem do_submits_at_most_once {E} `{Environment E}
  (c : client E) (w : World E) :
  length (submissions (log (snd (client_do c w)))) =
  (length (submissions (log w))
   + match client_submit c w with Some _ => 1 | None => 0 end)%nat.
Proof.
  unfold submissions. destruct c as [fc|sc]; unfold client_do, client_submit.
  - rewrite fast_do_log, filter_app, length_app.
    destruct (fasthttpClient.submission fc w) as [[req e]|];
      [|reflexivity].
    destruct (HostClient_Do _ req e). reflexivity.
  - rewrite std_do_log, length_app.
    destruct (httpClient.submission sc w) as [[req e]|]; [|reflexivity].
    destruct (Client_Do _ req e). reflexivity.
Qed.

(** ** Calls in a row *)

Lemma release_acquired (req : fasthttp.Request) (resp : fasthttp.Response)
  (p : fasthttp.pools) :
  fasthttp.ReleaseResponse resp (fasthttp.ReleaseRequest req (acquired p)) = p.
Proof. destruct p. reflexivity. Qed.

Lemma fast_do_fixed_body {E} `{Environment E} (c : fasthttpClient.t E)
  (b : string) (w : World E) :
  fasthttpClient.body c = Some b ->
  exists res w',
    fasthttpClient.do c w = (Ret res, w')
    /\ pool w' = pool w
    /\ log w' =
       (log w ++
        [evHostClientDo
           (fasthttpClient.SetBody (fasthttp.bodyString b)
              (fasthttpClient.prepare c fasthttp.emptyRequest))])%list.
Proof.
  intros Hb.
  assert (Hs : fasthttpClient.submission c w =
               Some (fasthttpClient.SetBody (fasthttp.bodyString b)
                       (fasthttpClient.prepare c fasthttp.emptyRequest),
                     env w)).
  { unfold fasthttpClient.submission. rewrite Hb. reflexivity. }
  rewrite (fast_do_submits _ _ _ _ Hs).
  destruct (HostClient_Do (fasthttpClient.client c)
              (fasthttpClient.SetBody (fasthttp.bodyString b)
                 (fasthttpClient.prepare c fasthttp.emptyRequest)) (env w))
    as [r e1] eqn:HDo.
  rewrite (fast_fire_eq _ _ _ _ r e1) by exact HDo.
  do 2 eexists. split; [reflexivity|]. cbn [pool log].
  split; [apply release_acquired|reflexivity].
Qed.

(** X6. On a client of Variant A with a fixed body, any number of calls
    of [do] in a row, whatever the transport answers them, leaves the
    pools as they were and logs one submission for each call, of the same
    request every time. *)
Theorem fast_fixed_body_runs {E} `{Environment E} (c : fasthttpClient.t E)
  (b : string) (n : nat) (w : World E) :
  fasthttpClient.body c = Some b ->
  pool (do_times n (fastClient c) w) = pool w
  /\ log (do_times n (fastClient c) w) =
     (log w ++
      repeat (evHostClientDo
                (fasthttpClient.SetBody (fasthttp.bodyString b)
                   (fasthttpClient.prepare c fasthttp.emptyRequest))) n)%list.
Proof.
  intros Hb. revert w. induction n as [|n IH]; intros w.
  - cbn. rewrite app_nil_r. split; reflexivity.
  - cbn [do_times client_do].
    destruct (fast_do_fixed_body c b w Hb) as (res & w' & Hdo & Hpool & Hlog).
    rewrite Hdo. destruct (IH w') as [IHpool IHlog].
    rewrite IHpool, IHlog, Hpool, Hlog, <- app_assoc. split; reflexivity.
Qed.

Lemma fast_fixed_body_runs_witness :
  let w := testWorld [reply 1500000 200 (NopCloser_NewReader "ok");
                      refuse 700000 (errorString "i/o timeout")] in
  exists c req,
    newFastHTTPClient testOpts = Ret (fastClient c)
    /\ fasthttpClient.body c = Some "{}"
    /\ pool (do_times 3 (fastClient c) w) = pool w
    /\ log (do_times 3 (fastClient c) w)
       = [evHostClientDo req; evHostClientDo req; evHostClientDo req].
Proof.
  intros w. eexists. eexists. split; [reflexivity|].
  match goal with
  | |- fasthttpClient.body ?c = _ /\ _ =>
      assert (Hb : fasthttpClient.body c = Some "{}") by reflexivity;
      destruct (fast_fixed_body_runs c "{}" 3 w Hb) as [Hpool Hlog]
  end.
  split; [exact Hb|]. split; [exact Hpool|]. exact Hlog.
Defined.

Lemma fast_do_failing_producer {E} `{Environment E}
  (c : fasthttpClient.t E) (prod : bodyStreamProducer E) (w : World E) :
  fasthttpClient.body c = None ->
  fasthttpClient.bodProd c = Some prod ->
  alwaysFails prod ->
  exists res w',
    fasthttpClient.do c w = (Ret res, w')
    /\ pool w' = acquired (pool w)
    /\ log w' = log w.
Proof.
  intros Hb Hp Hfail. destruct (Hfail (env w)) as (bserr & e' & Hprod).
  unfold fasthttpClient.do.
  cbn [fasthttp.AcquireRequest fasthttp.AcquireResponse].
  rewrite Hb, Hp. cbn [env setPool]. rewrite Hprod.
  do 2 eexists. repeat split.
Qed.

(** X7. On a client of Variant A whose body producer fails every time,
    every call of [do] leaves one more request and one more response out
    of the pools: after [n] calls in a row [n] pairs more are out, and
    nothing was submitted. *)
Theorem fast_failing_producer_runs {E} `{Environment E}
  (c : fasthttpClient.t E) (prod : bodyStreamProducer E) (n : nat)
  (w : World E) :
  fasthttpClient.body c = None ->
  fasthttpClient.bodProd c = Some prod ->
  alwaysFails prod ->
  fasthttp.requestsOut (pool (do_times n (fastClient c) w))
  = (fasthttp.requestsOut (pool w) + n)%nat
  /\ fasthttp.responsesOut (pool (do_times n (fastClient c) w))
     = (fasthttp.responsesOut (pool w) + n)%nat
  /\ log (do_times n (fastClient c) w) = log w.
Proof.
  intros Hb Hp Hfail. revert w. induction n as [|n IH]; intros w.
  - cbn. rewrite !Nat.add_0_r. repeat split.
  - cbn [do_times client_do].
    destruct (fast_do_failing_producer c prod w Hb Hp Hfail)
      as (res & w' & Hdo & Hpool & Hlog).
    rewrite Hdo. destruct (IH w') as (IHreq & IHresp & IHlog).
    rewrite IHreq, IHresp, IHlog, Hpool, Hlog.
    destruct (pool w) as [nreq nresp]. cbn. repeat split; lia.
Qed.

Lemma fast_failing_producer_runs_witness :
  let w := testWorld [reply 1500000 200 (NopCloser_NewReader "ok")] in
  alwaysFails failingProducer
  /\ exists c,
      newFastHTTPClient (withBodProd failingProducer testOpts)
      = Ret (fastClient c)
      /\ fasthttpClient.body c = None
      /\ fasthttpClient.bodProd c = Some failingProducer
      /\ fasthttp.requestsOut (pool (do_times 5 (fastClient c) w)) = 5%nat
      /\ fasthttp.responsesOut (pool (do_times 5 (fastClient c) w)) = 5%nat
      /\ log (do_times 5 (fastClient c) w) = [].
Proof.
  intros w.
  assert (Hfail : alwaysFails failingProducer).
  { intros e. do 2 eexists. reflexivity. }
  split; [exact Hfail|]. eexists. split; [reflexivity|].
  split; [reflexivity|]. split; [reflexivity|].
  match goal with
  | |- context [do_times 5 (fastClient ?c) w] =>
      exact (fast_failing_producer_runs c failingProducer 5 w
               eq_refl eq_refl Hfail)
  end.
Defined.

(** ** The time taken *)

(** X8. The time that [do] of Variant A returns for a call that got to
    the transport, where the clock is read right before and right after
    [Do] (lines 123 and 130): it is a [uint64]; when the clock did not go
    back over the submission, it is the duration that [time.Since] gives
    (the nanoseconds that passed, or the largest duration, 2^63 - 1, when
    more passed) divided by 1000 and rounded down; so when less than 2^63
    nanoseconds passed, less than one microsecond is lost. *)
Theorem fast_do_elapsed_bounds {E} `{Environment E}
  (fc : fasthttpClient.t E) (w : World E) (e0 e1 : E) (a : answer) :
  client_submit (fastClient fc) w = Some (e0, a, e1) ->
  exists code us err,
    fst (fasthttpClient.do fc w) = Ret (code, us, err)
    /\ 0 <= us < 2 ^ 64
    /\ (0 <= time_Now e1 - time_Now e0 ->
        us = Z.min (time_Now e1 - time_Now e0) (2 ^ 63 - 1) / 1000)
    /\ (0 <= time_Now e1 - time_Now e0 < 2 ^ 63 ->
        1000 * us <= time_Now e1 - time_Now e0 < 1000 * us + 1000).
Proof.
  intros Hsub.
  destruct (client_do_submitted _ _ _ _ _ Hsub) as (code & err & Hr).
  exists code, (elapsedMicros e0 e1), err. split; [exact Hr|].
  unfold elapsedMicros, uint64_of_int64, time_Sub.
  set (dt := time_Now e1 - time_Now e0).
  assert (Hval : 0 <= dt ->
                 Z.quot (if 2 ^ 63 - 1 <? dt then 2 ^ 63 - 1
                         else if dt <? - 2 ^ 63 then - 2 ^ 63 else dt) 1000
                 mod 2 ^ 64
                 = Z.min dt (2 ^ 63 - 1) / 1000).
  { intros Hdt.
    assert (Hsat : (if 2 ^ 63 - 1 <? dt then 2 ^ 63 - 1
                    else if dt <? - 2 ^ 63 then - 2 ^ 63 else dt)
                   = Z.min dt (2 ^ 63 - 1)).
    { destruct (Z.ltb_spec (2 ^ 63 - 1) dt); [lia|].
      destruct (Z.ltb_spec dt (- 2 ^ 63)); lia. }
    rewrite Hsat. rewrite Z.quot_div_nonneg by lia.
    apply Z.mod_small. split; [apply Z.div_pos; lia|].
    apply Z.div_lt_upper_bound; lia. }
  split; [apply Z.mod_pos_bound; lia|]. split.
  - exact Hval.
  - intros Hdt. rewrite Hval by lia.
    rewrite Z.min_l by lia.
    pose proof (Z.div_mod dt 1000 ltac:(lia)) as Hdm.
    pose proof (Z.mod_pos_bound dt 1000 ltac:(lia)) as Hmod.
    lia.
Qed.

Lemma fast_do_elapsed_bounds_witness :
  let w := testWorld [reply 1500999 200 (NopCloser_NewReader "ok")] in
  let e1 := {| clock := 1501999; script := [] |} in
  exists fc,
    newFastHTTPClient testOpts = Ret (fastClient fc)
    /\ client_submit (fastClient fc) w = Some (env w, answeredBy 200 None, e1)
    /\ 0 <= time_Now e1 - time_Now (env w) < 2 ^ 63
    /\ exists code err, fst (fasthttpClient.do fc w) = Ret (code, 1500, err).
Proof.
  intros w e1. eexists. split; [reflexivity|].
  match goal with
  | |- ?S = _ /\ _ =>
      assert (Hs : S = Some (env w, answeredBy 200 None, e1))
        by (vm_compute; reflexivity)
  end.
  assert (Hdt : 0 <= time_Now e1 - time_Now (env w) < 2 ^ 63)
    by (cbn; lia).
  split; [exact Hs|]. split; [exact Hdt|].
  destruct (fast_do_elapsed_bounds _ w _ _ _ Hs)
    as (code & us & err & Hr & _ & Hus & _).
  exists code, err. rewrite Hr, Hus by lia. reflexivity.
Defined.

(** ** The request that is submitted *)




(** X10. The request of Variant B. When the URL of the options parses,
    every request that [do] of the client built from them submits has the
    method of the options, the parsed URL, and as its headers the map
    that [headersToHTTPHeaders] makes of the header list. With a fixed
    body, its content length is the length of the body in bytes and its
    body delivers the body and neither fails to be read nor to be closed.
    With a body producer, its body is the stream that the producer has
    just returned, and its content length stays 0. *)
Theorem std_request_of_options {E} `{Environment E}
  (opts : clientOpts.t E) (u : url_URL) :
  url_Parse (clientOpts.url opts) = inl u ->
  exists c,
    newHTTPClient opts = Ret (stdClient c)
    /\ forall w req e0,
        httpClient.submission c w = Some (req, e0) ->
        nethttp.Method req = clientOpts.method opts
        /\ nethttp.URL req = Some u
        /\ nethttp.Header req = headersToHTTPHeaders (clientOpts.headers opts)
        /\ match clientOpts.body opts with
           | Some b =>
               nethttp.ContentLength req = Z.of_nat (String.length b)
               /\ nethttp.Body req
                  = Some {| rc_pending := b; rc_readErr := None;
                            rc_closeErr := None |}
               /\ e0 = env w
           | None =>
               exists prod bs,
                 clientOpts.bodProd opts = Some prod
                 /\ prod (env w) = (inl bs, e0)
                 /\ nethttp.Body req = Some bs
                 /\ nethttp.ContentLength req = 0
           end.
Proof.
  intros Hu. unfold newHTTPClient. rewrite Hu.
  eexists. split; [reflexivity|]. intros w req e0.
  unfold httpClient.submission, httpClient.prepare.
  cbn [httpClient.body httpClient.bodProd httpClient.headers
         httpClient.method httpClient.url nethttp.Header].
  destruct (clientOpts.body opts) as [b|].
  - intros [= <- <-].
    destruct (negb _); repeat split.
  - destruct (clientOpts.bodProd opts) as [prod|]; [|discriminate].
    destruct (prod (env w)) as [[bs|bserr] e] eqn:Hprod; [|discriminate].
    intros [= <- <-].
    destruct (negb _); repeat split; exists prod, bs; repeat split;
      exact Hprod.
Qed.

Lemma std_request_of_options_witness :
  let w := testWorld [] in
  url_Parse (clientOpts.url testOpts) = inl testURL
  /\ exists c req,
      newHTTPClient testOpts = Ret (stdClient c)
      /\ httpClient.submission c w = Some (req, env w)
      /\ nethttp.Method req = "POST"
      /\ nethttp.URL req = Some testURL
      /\ nethttp.Header req !! "Content-Type" = Some ["application/json"]
      /\ nethttp.ContentLength req = 2.
Proof.
  intros w.
  assert (Hu : url_Parse (clientOpts.url testOpts) = inl testURL)
    by reflexivity.
  split; [exact Hu|].
  destruct (std_request_of_options testOpts testURL Hu) as (c & Hc & Hreq).
  exists c.
  assert (Hs : exists req, httpClient.submission c w = Some (req, env w)).
  { injection Hc as <-. eexists. reflexivity. }
  destruct Hs as [req Hs]. exists req.
  destruct (Hreq w req (env w) Hs) as (Hm & Hurl & Hhd & Hlen & _).
  split; [exact Hc|]. split; [exact Hs|].
  split; [exact Hm|]. split; [exact Hurl|].
  split; [rewrite Hhd; reflexivity|exact Hlen].
Defined.

(** X11. The two variants get to their transports in the same cases.
    For the two clients built from the same options, in any world, [do]
    of one submits a request if and only if [do] of the other does, and
    both do so in the same state of the environment; and when they do
    not, both return the same results. *)
Theorem variants_submit_alike {E} `{Environment E}
  (opts : clientOpts.t E) (u : url_URL) (w : World E) :
  url_Parse (clientOpts.url opts) = inl u ->
  exists fc sc,
    newFastHTTPClient opts = Ret (fastClient fc)
    /\ newHTTPClient opts = Ret (stdClient sc)
    /\ snd <$> fasthttpClient.submission fc w
       = snd <$> httpClient.submission sc w
    /\ (fasthttpClient.submission fc w = None ->
        fst (fasthttpClient.do fc w) = fst (httpClient.do sc w)).
Proof.
  intros Hu. unfold newFastHTTPClient, newHTTPClient. rewrite Hu.
  do 2 eexists. split; [reflexivity|]. split; [reflexivity|].
  unfold fasthttpClient.submission, httpClient.submission,
    fasthttpClient.do, httpClient.do.
  cbn [fasthttpClient.body fasthttpClient.bodProd httpClient.body
         httpClient.bodProd fasthttp.AcquireRequest
         fasthttp.AcquireResponse].
  destruct (clientOpts.body opts) as [b|].
  - split; [reflexivity|discriminate].
  - destruct (clientOpts.bodProd opts) as [prod|];
      [|split; reflexivity].
    cbn [env setPool].
    destruct (prod (env w)) as [[bs|bserr] e].
    + split; [reflexivity|discriminate].
    + split; reflexivity.
Qed.

Lemma variants_submit_alike_witness :
  let opts := withBodProd failingProducer testOpts in
  let w := testWorld [reply 1500000 200 (NopCloser_NewReader "ok")] in
  url_Parse (clientOpts.url opts) = inl testURL
  /\ exists fc sc,
      newFastHTTPClient opts = Ret (fastClient fc)
      /\ newHTTPClient opts = Ret (stdClient sc)
      /\ fasthttpClient.submission fc w = None
      /\ httpClient.submission sc w = None
      /\ fst (fasthttpClient.do fc w) = fst (httpClient.do sc w).
Proof.
  intros opts w.
  assert (Hu : url_Parse (clientOpts.url opts) = inl testURL)
    by reflexivity.
  split; [exact Hu|].
  destruct (variants_submit_alike opts testURL w Hu)
    as (fc & sc & Hfc & Hsc & Hsame & Hres).
  exists fc, sc.
  assert (HsA : fasthttpClient.submission fc w = None).
  { injection Hfc as <-. reflexivity. }
  assert (HsB : httpClient.submission sc w = None).
  { injection Hsc as <-. reflexivity. }
  split; [exact Hfc|]. split; [exact Hsc|].
  split; [exact HsA|]. split; [exact HsB|]. exact (Hres HsA).
Defined.

(** ** More on the header adapters *)

Lemma lastValue_app (same : string -> bool) (h1 h2 : headersList) :
  lastValue same (h1 ++ h2)%list =
  match lastValue same h2 with
  | Some v => Some v
  | None => lastValue same h1
  end.
Proof.
  induction h2 as [|hd h2 IH] using rev_ind.
  - rewrite app_nil_r. reflexivity.
  - rewrite app_assoc, !lastValue_snoc.
    destruct (same (key hd)); [reflexivity|exact IH].
Qed.

Lemma lastValue_Some_In (same : string -> bool) (h : headersList) (v : string) :
  lastValue same h = Some v ->
  exists hd, In hd h /\ same (key hd) = true /\ value hd = v.
Proof.
  unfold lastValue.
  destruct (find (fun hd => same (key hd)) (rev h)) as [hd|] eqn:Hf;
    [|discriminate].
  intros [= <-]. apply find_some in Hf as [Hin Hsame].
  exists hd. split; [apply in_rev; exact Hin|]. split; [exact Hsame|].
  reflexivity.
Qed.

Lemma lastValue_None_In (same : string -> bool) (h : headersList) :
  lastValue same h = None ->
  forall hd, In hd h -> same (key hd) = false.
Proof.
  unfold lastValue.
  destruct (find (fun hd => same (key hd)) (rev h)) as [hd|] eqn:Hf;
    [discriminate|].
  intros _ hd Hin. apply (find_none _ _ Hf). apply in_rev in Hin.
  exact Hin.
Qed.

Lemma keys_NoDup_In (h : headersList) (hd hd' : header) :
  List.NoDup (keys h) -> In hd h -> In hd' h -> key hd = key hd' -> hd = hd'.
Proof.
  unfold keys. induction h as [|x h IH]; cbn; [tauto|].
  intros Hnd [->|Hin] [->|Hin'] Hk.
  - reflexivity.
  - apply List.NoDup_cons_iff in Hnd as [Hnotin _]. exfalso. apply Hnotin.
    rewrite Hk. apply in_map. exact Hin'.
  - apply List.NoDup_cons_iff in Hnd as [Hnotin _]. exfalso. apply Hnotin.
    rewrite <- Hk. apply in_map. exact Hin.
  - apply List.NoDup_cons_iff in Hnd as [_ Hnd]. exact (IH Hnd Hin Hin' Hk).
Qed.

(** X12. [headersToHTTPHeaders] on a list made of two: the map of the
    whole is the map of the second part, completed by the map of the
    first part for the keys that the second part has not. So headers
    added at the end of the list override those before them, and the
    others stay. *)
Theorem headersToHTTPHeaders_app (h1 h2 : headersList) :
  headersToHTTPHeaders (h1 ++ h2)%list
  = headersToHTTPHeaders h2 ∪ headersToHTTPHeaders h1.
Proof.
  apply map_eq. intros k.
  rewrite lookup_union, !headersToHTTPHeaders_lookup, lastValue_app.
  destruct (lastValue (String.eqb k) h2), (lastValue (String.eqb k) h1);
    reflexivity.
Qed.

(** X13. The map that [headersToHTTPHeaders] builds has an entry for a
    key exactly when a header of the list has this key, as it is written;
    every entry holds one value, never several, and this value is the
    value of a header of the list with this key. *)
Theorem headersToHTTPHeaders_entries (h : headersList) (k : string) :
  (is_Some (headersToHTTPHeaders h !! k) <-> In k (keys h))
  /\ forall vs,
      headersToHTTPHeaders h !! k = Some vs ->
      exists v, vs = [v] /\ In {| key := k; value := v |} h.
Proof.
  rewrite headersToHTTPHeaders_lookup. split.
  - destruct (lastValue (String.eqb k) h) as [v|] eqn:Hl; cbn.
    + split; [intros _|intros _; eexists; reflexivity].
      apply lastValue_Some_In in Hl as (hd & Hin & Hk & _).
      apply String.eqb_eq in Hk. subst k. unfold keys.
      apply in_map. exact Hin.
    + split; [intros [x [=]]|].
      unfold keys. intros Hin. apply in_map_iff in Hin as (hd & <- & Hin).
      pose proof (lastValue_None_In _ _ Hl hd Hin) as Hk.
      rewrite String.eqb_refl in Hk. discriminate.
  - intros vs.
    destruct (lastValue (String.eqb k) h) as [v|] eqn:Hl; cbn;
      [|discriminate].
    intros [= <-]. exists v. split; [reflexivity|].
    apply lastValue_Some_In in Hl as (hd & Hin & Hk & Hv).
    apply String.eqb_eq in Hk. subst k v. destruct hd. exact Hin.
Qed.

(** X14. For a header list whose keys are all different, the map that
    [headersToHTTPHeaders] builds does not depend on the order of the
    list. *)
Theorem headersToHTTPHeaders_order (h h' : headersList) :
  List.NoDup (keys h) ->
  Permutation h h' ->
  headersToHTTPHeaders h = headersToHTTPHeaders h'.
Proof.
  intros Hnd Hperm.
  assert (Hnd' : List.NoDup (keys h')).
  { unfold keys in *. eapply Permutation_NoDup; [|exact Hnd].
    apply Permutation_map. exact Hperm. }
  assert (Hlast : forall (l : headersList) k v,
             List.NoDup (keys l) ->
             (lastValue (String.eqb k) l = Some v <->
              In {| key := k; value := v |} l)).
  { intros l k v Hl. split.
    - intros Hs. apply lastValue_Some_In in Hs as (hd & Hin & Hk & Hv).
      apply String.eqb_eq in Hk. subst k v. destruct hd. exact Hin.
    - intros Hin.
      destruct (lastValue (String.eqb k) l) as [v'|] eqn:Hs.
      + apply lastValue_Some_In in Hs as (hd & Hin' & Hk & Hv).
        apply String.eqb_eq in Hk.
        assert (Heq : hd = {| key := k; value := v |})
          by (apply (keys_NoDup_In l); auto).
        subst hd. cbn in Hv. congruence.
      + pose proof (lastValue_None_In _ _ Hs _ Hin) as Hk. cbn in Hk.
        rewrite String.eqb_refl in Hk. discriminate. }
  apply map_eq. intros k. rewrite !headersToHTTPHeaders_lookup.
  destruct (lastValue (String.eqb k) h) as [v|] eqn:Hs.
  - apply (Hlast h k v Hnd) in Hs.
    apply (Permutation_in _ Hperm) in Hs.
    apply (Hlast h' k v Hnd') in Hs. rewrite Hs. reflexivity.
  - destruct (lastValue (String.eqb k) h') as [v'|] eqn:Hs';
      [|reflexivity].
    apply (Hlast h' k v' Hnd') in Hs'.
    apply (Permutation_in _ (Permutation_sym Hperm)) in Hs'.
    apply (Hlast h k v' Hnd) in Hs'. congruence.
Qed.

Lemma headersToHTTPHeaders_order_witness :
  let h := [mkHeader "Accept" "*/*"; mkHeader "X-Trace" "1";
            mkHeader "Content-Type" "application/json"] in
  let h' := [mkHeader "Content-Type" "application/json";
             mkHeader "Accept" "*/*"; mkHeader "X-Trace" "1"] in
  List.NoDup (keys h)
  /\ Permutation h h'
  /\ headersToHTTPHeaders h = headersToHTTPHeaders h'.
Proof.
  intros h h'.
  assert (Hnd : List.NoDup (keys h)).
  { unfold keys, h. cbn. repeat constructor; cbn; intros Hin;
      repeat (destruct Hin as [Hin|Hin]; [discriminate Hin|]);
      exact Hin. }
  assert (Hperm : Permutation h h').
  { unfold h, h'.
    apply (Permutation_cons_app [mkHeader "Content-Type" "application/json"]
             [mkHeader "X-Trace" "1"] (mkHeader "Accept" "*/*")).
    apply perm_swap. }
  split; [exact Hnd|]. split; [exact Hperm|].
  exact (headersToHTTPHeaders_order h h' Hnd Hperm).
Defined.

(** ** Edges of the construction and of the request *)

(** X15. The marker of SOCKS5 is looked for in the whole proxy URL: a
    proxy URL that has "socks5" somewhere and "socks5://" nowhere gets
    the SOCKS5 dialer of Variant A, on the proxy URL as it is, its scheme
    included; so does an HTTP proxy with "socks5" in its host name. *)
Theorem socks_marker_anywhere {E} `{Environment E}
  (opts : clientOpts.t E) (u : url_URL) :
  url_Parse (clientOpts.url opts) = inl u ->
  strings_Contains (clientOpts.proxyUrl opts) "socks5" = true ->
  strings_Contains (clientOpts.proxyUrl opts) "socks5://" = false ->
  exists c,
    newFastHTTPClient opts = Ret (fastClient c)
    /\ fasthttp.Dial (fasthttpClient.client c)
       = socksDial (clientOpts.proxyUrl opts).
Proof.
  intros Hu Hmark Hscheme. unfold newFastHTTPClient. rewrite Hu.
  eexists. split; [reflexivity|]. cbn [fasthttpClient.client fasthttp.Dial].
  assert (Hne : String.eqb (clientOpts.proxyUrl opts) "" = false).
  { destruct (clientOpts.proxyUrl opts); [discriminate Hmark|reflexivity]. }
  rewrite Hne, Hmark. cbn [negb].
  rewrite strings_Replace1_absent by exact Hscheme. reflexivity.
Qed.

Lemma socks_marker_anywhere_witness :
  let opts := withProxyUrl "http://socks5.corp.test:3128" testOpts in
  url_Parse (clientOpts.url opts) = inl testURL
  /\ strings_Contains (clientOpts.proxyUrl opts) "socks5" = true
  /\ strings_Contains (clientOpts.proxyUrl opts) "socks5://" = false
  /\ exists c,
      newFastHTTPClient opts = Ret (fastClient c)
      /\ fasthttp.Dial (fasthttpClient.client c)
         = socksDial "http://socks5.corp.test:3128".
Proof.
  intros opts.
  assert (Hu : url_Parse (clientOpts.url opts) = inl testURL)
    by reflexivity.
  assert (Hm : strings_Contains (clientOpts.proxyUrl opts) "socks5" = true)
    by (vm_compute; reflexivity).
  assert (Hs : strings_Contains (clientOpts.proxyUrl opts) "socks5://"
               = false) by (vm_compute; reflexivity).
  split; [exact Hu|]. split; [exact Hm|]. split; [exact Hs|].
  exact (socks_marker_anywhere opts testURL Hu Hm Hs).
Defined.

(** X16. With an empty header list, when the URL of the options parses:
    the client of Variant A has no header template, and the header of
    every request it submits has the host of the URL, the method, and
    but for them what a new header has when the body is a fixed one;
    when the body is a stream, whose size is not known, the header also
    has the length -1 and the header Transfer-Encoding: chunked, which
    [SetBodyStream] sets. The client of Variant B has an empty map, and
    every request it submits has no header and an empty [Host]. *)
Theorem empty_header_list_requests {E} `{Environment E}
  (opts : clientOpts.t E) (u : url_URL) :
  url_Parse (clientOpts.url opts) = inl u ->
  clientOpts.headers opts = [] ->
  (exists c,
      newFastHTTPClient opts = Ret (fastClient c)
      /\ fasthttpClient.headers c = None
      /\ forall w req e0,
          fasthttpClient.submission c w = Some (req, e0) ->
          fasthttp.Header req
          = {| fasthttp.connectionClose := false;
               fasthttp.contentLength :=
                 match clientOpts.body opts with
                 | Some _ => 0
                 | None => -1
                 end;
               fasthttp.contentLengthBytes := "";
               fasthttp.method := clientOpts.method opts;
               fasthttp.host := Host u;
               fasthttp.contentType := "";
               fasthttp.userAgent := "";
               fasthttp.h :=
                 match clientOpts.body opts with
                 | Some _ => []
                 | None => [("Transfer-Encoding", "chunked")]
                 end;
               fasthttp.cookies := [];
               fasthttp.cookiesCollected := false |})
  /\ (exists c,
         newHTTPClient opts = Ret (stdClient c)
         /\ httpClient.headers c = ∅
         /\ forall w req e0,
             httpClient.submission c w = Some (req, e0) ->
             nethttp.Header req = ∅ /\ nethttp.Host req = "").
Proof.
  intros Hu Hh. unfold newFastHTTPClient, newHTTPClient.
  rewrite Hu, Hh. split.
  - eexists. split; [reflexivity|]. split; [reflexivity|].
    intros w req e0. unfold fasthttpClient.submission,
      fasthttpClient.prepare.
    cbn [fasthttpClient.headers fasthttpClient.body fasthttpClient.bodProd
           headersToFastHTTPHeaders length Nat.eqb].
    destruct (clientOpts.body opts) as [b|].
    + intros [= <- _]. cbn. destruct (String.eqb (Scheme u) "https");
        reflexivity.
    + destruct (clientOpts.bodProd opts) as [prod|]; [|discriminate].
      destruct (prod (env w)) as [[bs|bserr] e]; [|discriminate].
      intros [= <- _]. cbn. destruct (String.eqb (Scheme u) "https");
        reflexivity.
  - eexists. split; [reflexivity|]. split; [reflexivity|].
    intros w req e0. unfold httpClient.submission, httpClient.prepare.
    cbn [httpClient.headers httpClient.body httpClient.bodProd
           headersToHTTPHeaders length Nat.eqb nethttp.Header].
    assert (Hget : nethttp.Header_Get ∅ "Host" = "") by reflexivity.
    rewrite Hget. cbn [String.eqb negb].
    destruct (clientOpts.body opts) as [b|].
    + intros [= <- _]. split; reflexivity.
    + destruct (clientOpts.bodProd opts) as [prod|]; [|discriminate].
      destruct (prod (env w)) as [[bs|bserr] e]; [|discriminate].
      intros [= <- _]. split; reflexivity.
Qed.

Lemma empty_header_list_requests_witness :
  let opts := withBodProd (streamProducer "payload") secureOpts in
  let w := testWorld [] in
  let u := {| Scheme := "https"; Host := "example.test";
              RequestURI := "/" |} in
  url_Parse (clientOpts.url opts) = inl u
  /\ clientOpts.headers opts = []
  /\ (exists c req,
         newFastHTTPClient opts = Ret (fastClient c)
         /\ fasthttpClient.submission c w = Some (req, env w)
         /\ fasthttp.host (fasthttp.Header req) = "example.test"
         /\ fasthttp.method (fasthttp.Header req) = "GET"
         /\ fasthttp.h (fasthttp.Header req)
            = [("Transfer-Encoding", "chunked")]).
Proof.
  intros opts w u.
  assert (Hu : url_Parse (clientOpts.url opts) = inl u) by reflexivity.
  split; [exact Hu|]. split; [reflexivity|].
  destruct (empty_header_list_requests opts u Hu eq_refl)
    as [(c & Hc & _ & Hreq) _].
  exists c.
  assert (Hs : exists req, fasthttpClient.submission c w = Some (req, env w)).
  { injection Hc as <-. eexists. reflexivity. }
  destruct Hs as [req Hs]. exists req.
  split; [exact Hc|]. split; [exact Hs|].
  rewrite (Hreq w req (env w) Hs). repeat split.
Defined.

(** X17. A request of Variant A never goes without a Host header when
    the client has a host: if the host that the client took from the URL
    is not empty, the Host header of every request that [do] submits is not
    empty, whatever the header template holds. *)
Theorem fast_request_has_host {E} (c : fasthttpClient.t E) (w : World E)
  req e0 :
  fasthttpClient.host c <> "" ->
  fasthttpClient.submission c w = Some (req, e0) ->
  fasthttp.host (fasthttp.Header req) <> "".
Proof.
  intros Hhost Hs. rewrite (fast_submission_Header _ _ _ _ Hs). cbv zeta.
  destruct (String.eqb_spec
              match fasthttpClient.headers c with
              | Some hs => fasthttp.host hs
              | None => ""
              end "") as [Heq|Hne]; assumption.
Qed.

Lemma fast_request_has_host_witness :
  let w := testWorld [] in
  let opts := withHeaders [mkHeader "Host" ""] testOpts in
  exists c req,
    newFastHTTPClient opts = Ret (fastClient c)
    /\ fasthttpClient.host c <> ""
    /\ fasthttpClient.submission c w = Some (req, env w)
    /\ fasthttp.host (fasthttp.Header req) <> "".
Proof.
  intros w opts. eexists. eexists. split; [reflexivity|].
  match goal with
  | |- fasthttpClient.host ?c <> _ /\ _ =>
      assert (Hh : fasthttpClient.host c <> "") by discriminate;
      eassert (Hs : fasthttpClient.submission c w = Some (_, env w))
        by reflexivity
  end.
  split; [exact Hh|]. split; [exact Hs|].
  exact (fast_request_has_host _ w _ _ Hh Hs).
Defined.

Lemma lastValue_ext_in (f g : string -> bool) (h : headersList) :
  (forall hd, In hd h -> f (key hd) = g (key hd)) ->
  lastValue f h = lastValue g h.
Proof.
  induction h as [|hd h IH] using rev_ind; [reflexivity|].
  intros Hfg. rewrite !lastValue_snoc.
  rewrite (Hfg hd) by (apply in_or_app; right; left; reflexivity).
  destruct (g (key hd)); [reflexivity|].
  apply IH. intros hd' Hin. apply Hfg. apply in_or_app. left. exact Hin.
Qed.

(** X20. A Host header overrides the host of the URL. When the URL of
    the options parses, and the value of the last Host header of the list
    (a header named Host, in any case of the letters) has no line break:
    every request that Variant A submits has this value as its host when
    it is not empty, and the host of the URL when it is empty or when
    the list has no Host header; and when the Host headers of the list
    are all written "Host", every request that Variant B submits has this
    value as its [Host], and an empty [Host], for which the transport
    takes the host of the URL, when the list has none. *)
Theorem host_header_of_requests {E} `{Environment E}
  (opts : clientOpts.t E) (u : url_URL) :
  url_Parse (clientOpts.url opts) = inl u ->
  let hostHeader :=
    lastValue (equalFoldASCII "Host") (clientOpts.headers opts) in
  hasLineBreak (default "" hostHeader) = false ->
  (exists c,
      newFastHTTPClient opts = Ret (fastClient c)
      /\ forall w req e0,
          fasthttpClient.submission c w = Some (req, e0) ->
          fasthttp.host (fasthttp.Header req) =
          match hostHeader with
          | Some v => if String.eqb v "" then Host u else v
          | None => Host u
          end)
  /\ ((forall hd,
          In hd (clientOpts.headers opts) ->
          equalFoldASCII "Host" (key hd) = true -> key hd = "Host") ->
      exists c,
        newHTTPClient opts = Ret (stdClient c)
        /\ forall w req e0,
            httpClient.submission c w = Some (req, e0) ->
            nethttp.Host req = default "" hostHeader).
Proof.
  intros Hu hostHeader Hv. split.
  - unfold newFastHTTPClient. rewrite Hu. eexists. split; [reflexivity|].
    intros w req e0 Hs. rewrite (fast_submission_Header _ _ _ _ Hs).
    cbn [fasthttpClient.headers fasthttpClient.host].
    pose proof (headersToFastHTTPHeaders_Peek (clientOpts.headers opts)
                  "Host" eq_refl) as HP.
    fold hostHeader in HP.
    assert (Hrm : fasthttp.removeNewLines <$> hostHeader = hostHeader).
    { destruct hostHeader as [v|]; [|reflexivity]. cbn in Hv |- *.
      rewrite (hasLineBreak_removeNewLines v Hv). reflexivity. }
    rewrite Hrm in HP.
    destruct (headersToFastHTTPHeaders (clientOpts.headers opts))
      as [res|].
    + destruct HP as [_ HP].
      change (fasthttp.RequestHeader_Peek "Host" res)
        with (fasthttp.host res) in HP.
      cbv zeta. rewrite HP. destruct hostHeader; reflexivity.
    + subst hostHeader. rewrite HP. reflexivity.
  - intros Hkeys. unfold newHTTPClient. rewrite Hu.
    eexists. split; [reflexivity|].
    intros w req e0 Hs. rewrite (std_submission_Host _ _ _ _ Hs).
    cbn [httpClient.headers]. unfold nethttp.Header_Get.
    change (nethttp.CanonicalMIMEHeaderKey "Host") with "Host".
    rewrite headersToHTTPHeaders_lookup.
    assert (Hl : lastValue (String.eqb "Host") (clientOpts.headers opts)
                 = hostHeader).
    { apply lastValue_ext_in. intros hd Hin.
      destruct (equalFoldASCII "Host" (key hd)) eqn:Hf.
      - rewrite (Hkeys hd Hin Hf). reflexivity.
      - apply String.eqb_neq. intros Heq. rewrite <- Heq in Hf.
        discriminate Hf. }
    rewrite Hl. destruct hostHeader; reflexivity.
Qed.

Lemma host_header_of_requests_witness :
  let opts :=
    withHeaders [mkHeader "Host" "first.test"; mkHeader "Accept" "*/*";
                 mkHeader "Host" "api.internal"] testOpts in
  url_Parse (clientOpts.url opts) = inl testURL
  /\ hasLineBreak
       (default ""
          (lastValue (equalFoldASCII "Host") (clientOpts.headers opts)))
     = false
  /\ (forall hd,
         In hd (clientOpts.headers opts) ->
         equalFoldASCII "Host" (key hd) = true -> key hd = "Host")
  /\ (exists c,
         newFastHTTPClient opts = Ret (fastClient c)
         /\ forall w req e0,
             fasthttpClient.submission c w = Some (req, e0) ->
             fasthttp.host (fasthttp.Header req) = "api.internal")
  /\ (exists c,
         newHTTPClient opts = Ret (stdClient c)
         /\ forall w req e0,
             httpClient.submission c w = Some (req, e0) ->
             nethttp.Host req = "api.internal").
Proof.
  intros opts.
  assert (Hu : url_Parse (clientOpts.url opts) = inl testURL)
    by reflexivity.
  assert (Hv : hasLineBreak
                 (default ""
                    (lastValue (equalFoldASCII "Host")
                       (clientOpts.headers opts))) = false)
    by reflexivity.
  assert (Hkeys : forall hd,
             In hd (clientOpts.headers opts) ->
             equalFoldASCII "Host" (key hd) = true -> key hd = "Host").
  { intros hd [<-|[<-|[<-|[]]]]; [reflexivity|discriminate|reflexivity]. }
  destruct (host_header_of_requests opts testURL Hu Hv) as [HA HB].
  destruct HA as (c & Hc & HA). destruct (HB Hkeys) as (c' & Hc' & HB').
  split; [exact Hu|]. split; [exact Hv|]. split; [exact Hkeys|]. split.
  - exists c. split; [exact Hc|]. exact HA.
  - exists c'. split; [exact Hc'|]. exact HB'.
Defined.

(** ** Reading the results of [do] *)

(** What [do] returns, by what its submission came to. *)
Lemma client_do_by_submit {E} `{Environment E} (c : client E) (w : World E) :
  match client_submit c w with
  | Some (e0, failedWith terr, e1) =>
      fst (client_do c w) = Ret (-1, elapsedMicros e0 e1, Some terr)
  | Some (e0, answeredBy status body, e1) =>
      exists err,
        fst (client_do c w) = Ret (status, elapsedMicros e0 e1, err)
        /\ (err = None -> body_sound body)
  | None =>
      (exists msg, fst (client_do c w) = Panic msg)
      \/ (exists bserr, fst (client_do c w) = Ret (0, 0, Some bserr))
  end.
Proof.
  destruct (client_submit c w) as [[[e0 a] e1]|] eqn:Hsub.
  - destruct c as [fc|sc]; unfold client_submit in Hsub; unfold client_do.
    + destruct (fasthttpClient.submission fc w) as [[req e]|] eqn:Hs;
        [|discriminate].
      destruct (HostClient_Do (fasthttpClient.client fc) req e) as [r e']
        eqn:HDo.
      injection Hsub as <- <- <-.
      rewrite (fast_do_submits _ _ _ _ Hs).
      rewrite (fast_fire_eq _ _ _ _ r e') by exact HDo.
      destruct r as [resp|terr]; cbn; [|reflexivity].
      exists None. split; [reflexivity|]. intros _. exact I.
    + destruct (httpClient.submission sc w) as [[req e]|] eqn:Hs;
        [|discriminate].
      destruct (Client_Do (httpClient.client sc) req e) as [r e'] eqn:HDo.
      injection Hsub as <- <- <-.
      rewrite (std_do_submits _ _ _ _ Hs).
      rewrite (std_fire_eq _ _ _ r e') by exact HDo.
      destruct r as [resp|terr]; cbn; [|reflexivity].
      eexists. split; [reflexivity|].
      destruct (rc_closeErr (nethttp.RespBody resp)); [discriminate|].
      intros Hr. split; [exact Hr|reflexivity].
  - pose proof (proj1 (client_submit_None c w) Hsub) as Hs.
    destruct c as [fc|sc]; unfold client_do.
    + rewrite (fast_do_no_submission _ _ Hs). revert Hs.
      unfold fasthttpClient.submission.
      destruct (fasthttpClient.body fc); [discriminate|].
      destruct (fasthttpClient.bodProd fc) as [prod|];
        [|intros _; left; eexists; reflexivity].
      destruct (prod (env w)) as [[bs|bserr] e]; [discriminate|].
      intros _. right. eexists. reflexivity.
    + rewrite (std_do_no_submission _ _ Hs). revert Hs.
      unfold httpClient.submission.
      destruct (httpClient.body sc); [discriminate|].
      destruct (httpClient.bodProd sc) as [prod|];
        [|intros _; left; eexists; reflexivity].
      destruct (prod (env w)) as [[bs|bserr] e]; [discriminate|].
      intros _. right. eexists. reflexivity.
Qed.

(** X18. A [nil] error of [do] means a response: when [do] of a client
    of either variant returns with a [nil] error, the request was
    submitted, the transport answered with a response, the code is the
    status of this response, and (Variant B) the body of the response was
    read and closed without an error. *)
Theorem nil_error_means_response {E} `{Environment E}
  (c : client E) (w : World E) (code us : Z) :
  fst (client_do c w) = Ret (code, us, None) ->
  exists e0 e1 body,
    client_submit c w = Some (e0, answeredBy code body, e1)
    /\ body_sound body.
Proof.
  intros Hres. pose proof (client_do_by_submit c w) as Hby.
  destruct (client_submit c w) as [[[e0 [terr|status body]] e1]|].
  - rewrite Hres in Hby. discriminate.
  - destruct Hby as (err & Hr & Hsound). rewrite Hres in Hr.
    injection Hr as -> -> <-.
    exists e0, e1, body. split; [reflexivity|].
    apply Hsound. reflexivity.
  - destruct Hby as [[msg Hp]|[bserr Hr]]; rewrite Hres in *; discriminate.
Qed.

Lemma nil_error_means_response_witness :
  let w := testWorld [reply 1500000 302 (NopCloser_NewReader "")] in
  exists c,
    newHTTPClient testOpts = Ret c
    /\ fst (client_do c w) = Ret (302, 1500, None)
    /\ exists e0 e1 body,
        client_submit c w = Some (e0, answeredBy 302 body, e1)
        /\ body_sound body.
Proof.
  intros w. eexists. split; [reflexivity|].
  match goal with
  | |- fst (client_do ?c _) = _ /\ _ =>
      assert (Hr : fst (client_do c w) = Ret (302, 1500, None))
        by (vm_compute; reflexivity)
  end.
  split; [exact Hr|]. exact (nil_error_means_response _ w 302 1500 Hr).
Defined.

(** X19. The code -1 means a failed submission, and the code 0 with no
    time an unsubmitted request: with transports whose statuses are not
    negative, [do] of a client of either variant returns the code -1
    exactly when its submission fails, and then the error is the error of
    the transport; and when [do] submits nothing and returns, it returns
    the code 0, the time 0 and an error. *)
Theorem sentinel_means_failed_submission {E} `{Environment E}
  (c : client E) (w : World E) (code us : Z) (err : option error) :
  statuses_valid E ->
  fst (client_do c w) = Ret (code, us, err) ->
  (code = -1 <->
   exists e0 e1 terr, client_submit c w = Some (e0, failedWith terr, e1))
  /\ (forall e0 e1 terr,
         client_submit c w = Some (e0, failedWith terr, e1) ->
         err = Some terr)
  /\ (client_submit c w = None -> code = 0 /\ us = 0 /\ err <> None).
Proof.
  intros [HvalidA HvalidB] Hres.
  pose proof (client_do_by_submit c w) as Hby.
  destruct (client_submit c w) as [[[e0 [terr|status body]] e1]|] eqn:Hsub.
  - rewrite Hres in Hby. injection Hby as -> -> ->.
    split; [|split].
    + split; [intros _; do 3 eexists; reflexivity|reflexivity].
    + intros ? ? ? [= _ <- _]. reflexivity.
    + discriminate.
  - destruct Hby as (err' & Hr & _). rewrite Hres in Hr.
    injection Hr as -> -> ->.
    assert (Hpos : 0 <= status).
    { destruct c as [fc|sc]; unfold client_submit in Hsub.
      - destruct (fasthttpClient.submission fc w) as [[req e]|];
          [|discriminate].
        destruct (HostClient_Do (fasthttpClient.client fc) req e)
          as [[resp|terr] e'] eqn:HDo; [|discriminate].
        injection Hsub as _ <- _ _. eapply HvalidA. exact HDo.
      - destruct (httpClient.submission sc w) as [[req e]|];
          [|discriminate].
        destruct (Client_Do (httpClient.client sc) req e)
          as [[resp|terr] e'] eqn:HDo; [|discriminate].
        injection Hsub as _ <- _ _. eapply HvalidB. exact HDo. }
    split; [|split].
    + split; [lia|intros (? & ? & ? & [=])].
    + discriminate.
    + discriminate.
  - destruct Hby as [[msg Hp]|[bserr Hr]]; rewrite Hres in *;
      [discriminate|].
    injection Hr as -> -> ->.
    split; [|split].
    + split; [discriminate|intros (? & ? & ? & [=])].
    + discriminate.
    + intros _. repeat split. discriminate.
Qed.

Lemma sentinel_means_failed_submission_witness :
  let w := testWorld [refuse 700000 (errorString "i/o timeout")] in
  statuses_valid testEnv
  /\ exists c,
      newHTTPClient testOpts = Ret c
      /\ fst (client_do c w) = Ret (-1, 700, Some (errorString "i/o timeout"))
      /\ exists e0 e1 terr,
          client_submit c w = Some (e0, failedWith terr, e1).
Proof.
  intros w. split; [exact testEnvironment_statuses_valid|].
  eexists. split; [reflexivity|].
  match goal with
  | |- fst (client_do ?c _) = _ /\ _ =>
      assert (Hr : fst (client_do c w)
                   = Ret (-1, 700, Some (errorString "i/o timeout")))
        by (vm_compute; reflexivity)
  end.
  split; [exact Hr|].
  destruct (sentinel_means_failed_submission _ w _ _ _
              testEnvironment_statuses_valid Hr) as [Hiff _].
  apply Hiff. reflexivity.
Defined.
